(** * Schema generator command-line tools: resource listing and batch generation

    A shallow embedding of three command-line programs of the generator:

    - [listresources.ts]: walks the root schema documents, collects their
      [$ref] strings, resolves each one to a pair of enumerations and builds
      the table of resource types and API versions;
    - [generateall.ts]: the full-batch orchestrator, with its two [try]
      blocks (one per base path, one per autogenlist entry);
    - the single-base-path generator, which has no [try] around generation.

    JavaScript values that come out of [JSON.parse] are modelled by [JValue];
    exceptions by the [Throw] case of [completion]; the imported modules
    ([../constants], [../specs], [../generate], [../autogenlist], [../utils])
    are interfaces, given as type classes. *)

From Stdlib Require Import List String Ascii ZArith Bool Lia.
From Stdlib Require Import DecimalString.
Import ListNotations.
Open Scope string_scope.
Open Scope list_scope.

(* ================================================================= *)
(** ** The JavaScript runtime, as far as the programs use it *)

Module Js.

(** A thrown value: an Error object, with its name and its message.
    [TypeError] is what the engine raises (reading a property of [null] or
    [undefined], calling something that is not a function); [Error] is what
    the programs raise with [new Error(msg)] and what their collaborators
    raise.  A thrown value that is not an Error object is outside the model;
    among those are the values with no string form (an object without
    [toString], a symbol), for which a template literal inside a [catch]
    block would itself throw.  [Untyped] is not an exception: it marks an
    execution the model does not follow further, because a value left its
    declared TypeScript type (an [enum] array holding something other than
    strings) or because a member inherited from a built-in prototype was
    read (a function, not a JSON value). *)
Inductive Exn : Type :=
| TypeError (message : string)
| Error (message : string)
| Untyped (what : string).

(** How an evaluation ends: with a value, or with a thrown one. *)
Inductive completion (A : Type) : Type :=
| Ok (value : A)
| Throw (error : Exn).
Arguments Ok {A} value.
Arguments Throw {A} error.

Definition bind {A B : Type} (m : completion A) (k : A -> completion B) : completion B :=
  match m with
  | Ok a => k a
  | Throw e => Throw e
  end.

(** [Error.prototype.toString]: the name alone when the message is empty,
    and the name, a colon, a space and the message otherwise (the names used
    here are never empty). *)
Definition named (name message : string) : string :=
  if String.eqb message EmptyString then name
  else String.append name (String.append ": " message).

(** The text of a thrown Error object inside a template literal. *)
Definition errorText (e : Exn) : string :=
  match e with
  | TypeError message => named "TypeError" message
  | Error message => named "Error" message
  | Untyped what => named "Untyped" what
  end.

(** [s.toLowerCase()], on strings of 8-bit characters: only [A]..[Z] change. *)
Definition lowerChar (c : ascii) : ascii :=
  let n := nat_of_ascii c in
  if andb (65 <=? n)%nat (n <=? 90)%nat then ascii_of_nat (n + 32) else c.

Fixpoint toLowerCase (s : string) : string :=
  match s with
  | EmptyString => EmptyString
  | String c rest => String (lowerChar c) (toLowerCase rest)
  end.

(** [s.startsWith(p)] *)
Fixpoint startsWith (s p : string) : bool :=
  match p, s with
  | EmptyString, _ => true
  | String _ _, EmptyString => false
  | String a p', String b s' => andb (Ascii.eqb a b) (startsWith s' p')
  end.

(** [s.substring(n)]: the string without its first [n] characters. *)
Fixpoint substring (n : nat) (s : string) : string :=
  match n, s with
  | O, _ => s
  | S _, EmptyString => EmptyString
  | S n', String _ rest => substring n' rest
  end.

(** [s.split(sep)] for a one-character separator: never empty. *)
Fixpoint split (sep : ascii) (s : string) : list string :=
  match s with
  | EmptyString => [EmptyString]
  | String c rest =>
      if Ascii.eqb c sep then EmptyString :: split sep rest
      else match split sep rest with
           | first :: others => String c first :: others
           | [] => [String c EmptyString]
           end
  end.

(** [[...new Set(xs)]]: one copy of each string, at its first position. *)
Fixpoint uniqueInto (seen : list string) (xs : list string) : list string :=
  match xs with
  | [] => []
  | x :: rest =>
      if existsb (String.eqb x) seen then uniqueInto seen rest
      else x :: uniqueInto (x :: seen) rest
  end.

Definition spreadSet (xs : list string) : list string := uniqueInto [] xs.

(** Modelled from the spec: [lowerCaseCompare] of [../utils] is not among the
    sources.  The spec calls it a case-insensitive comparison of two strings,
    and the callers test its completion against [0]: both arguments are
    lower-cased and compared, [0] standing for equal. *)
Definition lowerCaseCompare (a b : string) : Z :=
  match String.compare (toLowerCase a) (toLowerCase b) with
  | Eq => 0
  | Lt => -1
  | Gt => 1
  end.

End Js.

Module JsNotations.
Notation "x <- m ;; k" := (Js.bind m (fun x => k))
  (at level 61, m at next level, right associativity).
End JsNotations.

(* ================================================================= *)
(** ** Values produced by [JSON.parse] *)

Module Json.

Unset Elimination Schemes.

(** The fields of an object are listed in the order of [Object.keys], with
    distinct names, as [JSON.parse] builds them.  Of a number only its value
    matters here (whether it is zero decides whether it is truthy). *)
Inductive JValue : Type :=
| JNull
| JBool (b : bool)
| JNumber (n : Z)
| JString (s : string)
| JArray (elems : list JValue)
| JObject (fields : list (string * JValue)).

Set Elimination Schemes.

(** The name of the [i]-th element of an array: its decimal numeral. *)
Definition indexKey (i : nat) : string :=
  NilEmpty.string_of_uint (Nat.to_uint i).

Fixpoint ownProperty (key : string) (fields : list (string * JValue)) : option JValue :=
  match fields with
  | [] => None
  | (k, v) :: rest => if String.eqb k key then Some v else ownProperty key rest
  end.

Fixpoint elementAt (key : string) (i : nat) (elems : list JValue) : option JValue :=
  match elems with
  | [] => None
  | v :: rest => if String.eqb key (indexKey i) then Some v else elementAt key (S i) rest
  end.

Fixpoint charAt (key : string) (i : nat) (s : string) : option JValue :=
  match s with
  | EmptyString => None
  | String c rest =>
      if String.eqb key (indexKey i) then Some (JString (String c EmptyString))
      else charAt key (S i) rest
  end.

(** The string-named members of the built-in prototypes (ECMAScript 2024,
    with its Annex B), which every object, array, string, number and boolean
    inherits. *)
Definition objectMembers : list string :=
  [ "constructor"; "__defineGetter__"; "__defineSetter__"; "hasOwnProperty";
    "__lookupGetter__"; "__lookupSetter__"; "isPrototypeOf";
    "propertyIsEnumerable"; "toString"; "valueOf"; "__proto__";
    "toLocaleString" ].

Definition arrayMembers : list string :=
  [ "at"; "concat"; "copyWithin"; "entries"; "every"; "fill"; "filter"; "find";
    "findIndex"; "findLast"; "findLastIndex"; "flat"; "flatMap"; "forEach";
    "includes"; "indexOf"; "join"; "keys"; "lastIndexOf"; "map"; "pop"; "push";
    "reduce"; "reduceRight"; "reverse"; "shift"; "slice"; "some"; "sort";
    "splice"; "toReversed"; "toSorted"; "toSpliced"; "unshift"; "values";
    "with" ].

Definition stringMembers : list string :=
  [ "at"; "charAt"; "charCodeAt"; "codePointAt"; "concat"; "endsWith";
    "includes"; "indexOf"; "isWellFormed"; "lastIndexOf"; "localeCompare";
    "match"; "matchAll"; "normalize"; "padEnd"; "padStart"; "repeat";
    "replace"; "replaceAll"; "search"; "slice"; "split"; "startsWith";
    "substring"; "toLocaleLowerCase"; "toLocaleUpperCase"; "toLowerCase";
    "toUpperCase"; "toWellFormed"; "trim"; "trimEnd"; "trimStart"; "substr";
    "anchor"; "big"; "blink"; "bold"; "fixed"; "fontcolor"; "fontsize";
    "italics"; "link"; "small"; "strike"; "sub"; "sup"; "trimLeft";
    "trimRight" ].

Definition numberMembers : list string :=
  [ "toExponential"; "toFixed"; "toPrecision" ].

(** Whether [value] inherits a member named [key]. *)
Definition inherits (value : JValue) (key : string) : bool :=
  existsb (String.eqb key)
    (match value with
     | JNull => []
     | JBool _ => objectMembers
     | JNumber _ => numberMembers ++ objectMembers
     | JString _ => stringMembers ++ objectMembers
     | JArray _ => arrayMembers ++ objectMembers
     | JObject _ => objectMembers
     end).

(** What a property that [value] does not own reads as: [undefined], unless
    the name is that of an inherited member.  Such a member is a function (or,
    for [__proto__], the prototype), which is not a JSON value: the model does
    not follow the execution further. *)
Definition notOwned (value : JValue) (key : string) : Js.completion (option JValue) :=
  if inherits value key
  then Js.Throw (Js.Untyped "member inherited from a built-in prototype")
  else Js.Ok None.

Definition found (value : JValue) (key : string) (own : option JValue)
  : Js.completion (option JValue) :=
  match own with
  | Some v => Js.Ok (Some v)
  | None => notOwned value key
  end.

(** [value[key]], where [None] stands for [undefined].  Reading a property of
    [undefined] or [null] throws, with the engine's message.  An own property
    comes before an inherited member of the same name. *)
Definition getProp (value : option JValue) (key : string) : Js.completion (option JValue) :=
  match value with
  | None =>
      Js.Throw (Js.TypeError
        (String.append "Cannot read properties of undefined (reading '"
           (String.append key "')")))
  | Some JNull =>
      Js.Throw (Js.TypeError
        (String.append "Cannot read properties of null (reading '"
           (String.append key "')")))
  | Some (JObject fields as value) => found value key (ownProperty key fields)
  | Some (JArray elems as value) =>
      if String.eqb key "length" then Js.Ok (Some (JNumber (Z.of_nat (List.length elems))))
      else found value key (elementAt key 0 elems)
  | Some (JString s as value) =>
      if String.eqb key "length" then Js.Ok (Some (JNumber (Z.of_nat (String.length s))))
      else found value key (charAt key 0 s)
  | Some (JBool _ as value) | Some (JNumber _ as value) => notOwned value key
  end.

(** What [!value] negates. *)
Definition truthy (value : option JValue) : bool :=
  match value with
  | None => false
  | Some JNull => false
  | Some (JBool b) => b
  | Some (JNumber n) => negb (Z.eqb n 0)
  | Some (JString s) => negb (String.eqb s EmptyString)
  | Some (JArray _) | Some (JObject _) => true
  end.

End Json.

(* ================================================================= *)
(** ** [listresources.ts] *)

Module ListResources.
Import Js Json JsNotations.

(** What the program takes from [../constants] and from the file system:
    [constants.schemasBaseUri], and the parsed content of the file that
    [path.resolve(path.join(constants.schemasBasePath, relative))] names
    ([readFile] followed by [JSON.parse], either of which may throw). *)
Class SchemaStore : Type := {
  schemasBaseUri : string;
  readJsonFile : string -> completion JValue
}.

Definition rootSchemaPaths : list string :=
  [ "https://schema.management.azure.com/schemas/2019-04-01/deploymentTemplate.json";
    "https://schema.management.azure.com/schemas/common/definitions.json";
    "https://schema.management.azure.com/schemas/common/autogeneratedResources.json";
    "https://schema.management.azure.com/schemas/common/manuallyAddedResources.json" ].

(** One element of the list that [getResourceInfo] returns. *)
Record Resource : Type := {
  apiVersion : string;
  type : string
}.

(** [allResources]: the own properties of the object, in creation order.
    (The engine lists integer-like names first; no two names of the table
    ever match the same type, so the order does not change which name
    [find] returns.) *)
Definition Catalog : Type := list (string * list string).

Section Program.
Context {store : SchemaStore}.

(** The test of [readSchema] and of the filter in
    [findAllResourceReferences]. *)
Definition underSchemasBase (s : string) : bool :=
  startsWith (toLowerCase s) (String.append (toLowerCase schemasBaseUri) "/").

Definition invalidSchemaUri (schemaUri : string) : Exn :=
  Error (String.append "Invalid schema Uri " schemaUri).

Definition readSchema (schemaUri : string) : completion JValue :=
  if negb (underSchemasBase schemaUri) then Throw (invalidSchemaUri schemaUri)
  else readJsonFile (substring (String.length schemasBaseUri + 1) schemaUri).

(** [findAllReferences(input)].  [visit] is the body of the loop over
    [Object.keys(input)], applied to one key and [input[key]].

    [Object.keys(null)] throws; [typeof null] is ['object'], so a [null]
    field value reaches it through the second branch, and a [null] array
    element through the first.  The keys of a string are its indices and the
    values its characters, the keys of an array its indices: none is
    ['$ref'], so only the first two branches matter for them.  Numbers and
    booleans have no keys. *)
Fixpoint findAllReferences (input : JValue) : completion (list string) :=
  let visit (key : string) (value : JValue) : completion (list string) :=
    match value with
    | JArray elems =>
        (fix each (values : list JValue) : completion (list string) :=
           match values with
           | [] => Ok []
           | value :: others =>
               foundRefs <- findAllReferences value;;
               refs <- each others;;
               Ok (foundRefs ++ refs)
           end) elems
    | JObject _ | JNull => findAllReferences value
    | JString s => if String.eqb key "$ref" then Ok [s] else Ok []
    | JBool _ | JNumber _ => Ok []
    end in
  match input with
  | JNull => Throw (TypeError "Cannot convert undefined or null to object")
  | JBool _ | JNumber _ => Ok []
  | JString _ => Ok []
  | JArray elems =>
      (fix keys (i : nat) (values : list JValue) : completion (list string) :=
         match values with
         | [] => Ok []
         | value :: others =>
             found <- visit (indexKey i) value;;
             refs <- keys (S i) others;;
             Ok (found ++ refs)
         end) O elems
  | JObject fields =>
      (fix keys (entries : list (string * JValue)) : completion (list string) :=
         match entries with
         | [] => Ok []
         | (key, value) :: others =>
             found <- visit key value;;
             refs <- keys others;;
             Ok (found ++ refs)
         end) fields
  end.

(** [schemaRef.split('#')[0]] *)
Definition documentUri (schemaRef : string) : string :=
  hd EmptyString (split "#" schemaRef).

(** [schemaRef.split('#')[1].substring(1)]: without a ['#'] the second
    element is [undefined]. *)
Definition relativeRef (schemaRef : string) : completion string :=
  match nth_error (split "#" schemaRef) 1 with
  | Some fragment => Ok (substring 1 fragment)
  | None => Throw (TypeError "Cannot read properties of undefined (reading 'substring')")
  end.

(** The loop [schema = schema[pathElement]]. *)
Fixpoint descend (schema : option JValue) (pathElements : list string) : completion (option JValue) :=
  match pathElements with
  | [] => Ok schema
  | pathElement :: others =>
      next <- getProp schema pathElement;;
      descend next others
  end.

(** Lines 49 to 56 of [getResourceInfo]: the node the reference points to. *)
Definition targetNode (schemaRef : string) : completion (option JValue) :=
  let schemaUri := documentUri schemaRef in
  fragment <- relativeRef schemaRef;;
  document <- readSchema schemaUri;;
  descend (Some document) (split "/" fragment).

Definition malformedSchema (schemaRef : string) : Exn :=
  Error (String.append "Unable to find expected properties for " schemaRef).

(** One disjunct [!e] of the test, for an [e] whose value was read. *)
Definition expected (schemaRef : string) (value : option JValue) : completion JValue :=
  match value with
  | Some v => if truthy value then Ok v else Throw (malformedSchema schemaRef)
  | None => Throw (malformedSchema schemaRef)
  end.

(** Lines 58 to 63: the five-way test, left to right, and the two
    enumerations [resourceTypes] and [apiVersions]. *)
Definition expectedProperties (schemaRef : string) (schema : option JValue)
  : completion (JValue * JValue) :=
  properties0 <- getProp schema "properties";;
  properties <- expected schemaRef properties0;;
  type0 <- getProp (Some properties) "type";;
  typeSchema <- expected schemaRef type0;;
  typeEnum0 <- getProp (Some typeSchema) "enum";;
  resourceTypes <- expected schemaRef typeEnum0;;
  apiVersion0 <- getProp (Some properties) "apiVersion";;
  apiVersionSchema <- expected schemaRef apiVersion0;;
  apiVersionEnum0 <- getProp (Some apiVersionSchema) "enum";;
  apiVersions <- expected schemaRef apiVersionEnum0;;
  Ok (resourceTypes, apiVersions).

(** The part of [getResourceInfo] that loads and checks: from a reference to
    its two enumerations. *)
Definition resolveEnumerations (schemaRef : string) : completion (JValue * JValue) :=
  schema <- targetNode schemaRef;;
  expectedProperties schemaRef schema.

(** An element of an array declared [string[]]. *)
Definition declaredString (value : JValue) : completion string :=
  match value with
  | JString s => Ok s
  | _ => Throw (Untyped "enum element that is not a string")
  end.

Fixpoint declaredStrings (values : list JValue) : completion (list string) :=
  match values with
  | [] => Ok []
  | value :: others =>
      s <- declaredString value;;
      rest <- declaredStrings others;;
      Ok (s :: rest)
  end.

(** Lines 65 to 68: [resourceTypes.map(type => apiVersions.map(...))] and
    the [reduce] that concatenates the rows.  [map] exists on arrays only;
    the inner [map] is reached once per element of [resourceTypes]. *)
Definition crossProduct (resourceTypes apiVersions : JValue) : completion (list Resource) :=
  match resourceTypes with
  | JArray types =>
      (fix rows (remaining : list JValue) : completion (list Resource) :=
         match remaining with
         | [] => Ok []
         | t :: others =>
             row <- match apiVersions with
                    | JArray versions =>
                        type <- declaredString t;;
                        vs <- declaredStrings versions;;
                        Ok (map (fun apiVersion =>
                                   {| apiVersion := apiVersion; type := type |}) vs)
                    | _ => Throw (TypeError "apiVersions.map is not a function")
                    end;;
             rest <- rows others;;
             Ok (row ++ rest)
         end) types
  | _ => Throw (TypeError "resourceTypes.map is not a function")
  end.

Definition getResourceInfo (schemaRef : string) : completion (list Resource) :=
  enums <- resolveEnumerations schemaRef;;
  crossProduct (fst enums) (snd enums).

(** The first loop of [findAllResourceReferences]. *)
Fixpoint collectRefs (allRefs : list string) (roots : list string) : completion (list string) :=
  match roots with
  | [] => Ok allRefs
  | rootSchemaPath :: others =>
      rootSchema <- readSchema rootSchemaPath;;
      found <- findAllReferences rootSchema;;
      let schemaRefs := filter underSchemasBase found in
      collectRefs (allRefs ++ schemaRefs) others
  end.

(** The second loop: one [filter] per root. *)
Definition dropRoot (allRefs : list string) (rootSchemaPath : string) : list string :=
  filter (fun ref => negb (Z.eqb (lowerCaseCompare (documentUri ref) rootSchemaPath) 0)) allRefs.

Definition findAllResourceReferences : completion (list string) :=
  allRefs <- collectRefs [] rootSchemaPaths;;
  Ok (spreadSet (fold_left dropRoot rootSchemaPaths allRefs)).

(** [allResources[resourceKey].push(apiVersion)] *)
Fixpoint pushAt (resourceKey apiVersion : string) (allResources : Catalog) : Catalog :=
  match allResources with
  | [] => []
  | (key, versions) :: others =>
      if String.eqb key resourceKey then (key, versions ++ [apiVersion]) :: others
      else (key, versions) :: pushAt resourceKey apiVersion others
  end.

(** The body of the inner loop of the main function.  Assigning to
    ['__proto__'] replaces the prototype of the object and creates no own
    property: the array that receives the version is not in the table. *)
Definition addResource (allResources : Catalog) (resource : Resource) : Catalog :=
  match find (fun key => Z.eqb (lowerCaseCompare key (type resource)) 0)
             (map fst allResources) with
  | Some resourceKey => pushAt resourceKey (apiVersion resource) allResources
  | None =>
      let resourceKey := type resource in
      if String.eqb resourceKey "__proto__" then allResources
      else pushAt resourceKey (apiVersion resource) (allResources ++ [(resourceKey, [])])
  end.

Definition addResources (allResources : Catalog) (resources : list Resource) : Catalog :=
  fold_left addResource resources allResources.

Fixpoint catalogRefs (allResources : Catalog) (refs : list string) : completion Catalog :=
  match refs with
  | [] => Ok allResources
  | ref :: others =>
      resources <- getResourceInfo ref;;
      catalogRefs (addResources allResources resources) others
  end.

(** The function given to [series]: the table it prints. *)
Definition listResources : completion Catalog :=
  rootSchemaRefs <- findAllResourceReferences;;
  catalogRefs [] rootSchemaRefs.

End Program.

(** [allResources[key]] *)
Definition versionsOf (key : string) (allResources : Catalog) : option (list string) :=
  option_map snd (find (fun entry => String.eqb (fst entry) key) allResources).

End ListResources.

(* ================================================================= *)
(** ** What the two generation programs share *)

Module Generate.
Import Js.

(** An entry of the autogenlist, with the fields the programs read. *)
Record AutoGenConfig : Type := {
  basePath : string;
  namespace : string;
  readmeFile : option string;
  disabledForAutogen : option bool
}.

(** [x.disabledForAutogen === true] *)
Definition isDisabled (x : AutoGenConfig) : bool :=
  match disabledForAutogen x with
  | Some true => true
  | _ => false
  end.

Inductive Outcome : Type := succeeded | failed.

(** [Package] of [../models], once both of its fields are assigned. *)
Record Package : Type := {
  path : list string;
  packageName : string;
  result : Outcome
}.

(** The calls that leave the program and the lines it writes to the summary
    log.  [C] is [SchemaConfiguration], which the programs only pass along.
    What goes to [console.log] alone is not recorded. *)
Inductive Event (C : Type) : Type :=
| ClearRefs (entries : list AutoGenConfig)
| GenerateSchemas (readme : string) (autoGenConfig : AutoGenConfig)
| SaveRefs (schemaConfigs : list C)
| SummaryLog (data : string)
| WriteJson (outputPath : string) (packages : list Package).
Arguments ClearRefs {C} entries.
Arguments GenerateSchemas {C} readme autoGenConfig.
Arguments SaveRefs {C} schemaConfigs.
Arguments SummaryLog {C} data.
Arguments WriteJson {C} outputPath packages.

Section Steps.
Context {C L : Type}.

(** The events so far, oldest first, and the local variables of the
    callback ([L]). *)
Record State : Type := {
  history : list (Event C);
  locals : L
}.

(** A statement: it may change the state, and ends with a value or a
    throw.  What was done before a throw stays done. *)
Definition Step (A : Type) : Type := State -> State * completion A.

Definition ret {A : Type} (a : A) : Step A := fun s => (s, Ok a).

Definition throw {A : Type} (e : Exn) : Step A := fun s => (s, Throw e).

Definition andThen {A B : Type} (m : Step A) (k : A -> Step B) : Step B :=
  fun s =>
    match m s with
    | (s', Ok a) => k a s'
    | (s', Throw e) => (s', Throw e)
    end.

(** [try { body } catch (error) { handler }] *)
Definition tryCatch {A : Type} (body : Step A) (handler : Exn -> Step A) : Step A :=
  fun s =>
    match body s with
    | (s', Ok a) => (s', Ok a)
    | (s', Throw e) => handler e s'
    end.

(** A collaborator that only answers: the answer may depend on everything
    that happened before. *)
Definition ask {A : Type} (f : list (Event C) -> completion A) : Step A :=
  fun s => (s, f (history s)).

Definition emit (ev : Event C) : Step unit :=
  fun s => ({| history := history s ++ [ev]; locals := locals s |}, Ok tt).

(** A collaborator that acts: the call is recorded, and its answer depends
    on what happened before it. *)
Definition call {A : Type} (ev : Event C) (f : list (Event C) -> completion A) : Step A :=
  fun s => ({| history := history s ++ [ev]; locals := locals s |}, f (history s)).

Definition getLocals : Step L := fun s => (s, Ok (locals s)).

Definition setLocals (f : L -> L) : Step unit :=
  fun s => ({| history := history s; locals := f (locals s) |}, Ok tt).

(** [for (const x of xs) { body }] *)
Fixpoint forEach {A : Type} (body : A -> Step unit) (xs : list A) : Step unit :=
  match xs with
  | [] => ret tt
  | x :: others => andThen (body x) (fun _ => forEach body others)
  end.

End Steps.
Arguments State : clear implicits.
Arguments Step : clear implicits.

End Generate.

Module StepNotations.
Notation "x <~ m ;; k" := (Generate.andThen m (fun x => k))
  (at level 61, m at next level, right associativity).
Notation "m ;;; k" := (Generate.andThen m (fun _ => k))
  (at level 61, right associativity).
End StepNotations.

(* ================================================================= *)
(** ** [generateall.ts] *)

Module GenerateAll.
Import Js Generate StepNotations.

(** The imported functions the callback calls, each with the events that
    preceded the call. *)
Class Collaborators (C : Type) : Type := {
  validateAndReturnReadmePath : list (Event C) -> string -> string -> completion string;
  getApiVersionsByNamespace : list (Event C) -> string -> completion (list (string * list string));
  findOrGenerateAutogenEntries : list (Event C) -> string -> list string -> completion (list AutoGenConfig);
  clearAutoGeneratedSchemaRefs : list (Event C) -> list AutoGenConfig -> completion unit;
  getPackageString : list (Event C) -> string -> completion string;
  generateSchemas : list (Event C) -> string -> AutoGenConfig -> completion (list C);
  saveAutoGeneratedSchemaRefs : list (Event C) -> list C -> completion unit;
  resolveAbsolutePath : list (Event C) -> string -> completion string;
  writeJsonFile : list (Event C) -> string -> list Package -> completion unit
}.

(** The two options the loop and its epilogue read. *)
Record Args : Type := {
  readmeFiles : option (list string);
  outputPath : option string
}.

Section Program.
Context {C : Type} {collaborators : Collaborators C}.

(** [schemaConfigs] and [packages] *)
Record Locals : Type := {
  schemaConfigs : list C;
  packages : list Package
}.

Definition Run (A : Type) : Type := Step C Locals A.

Definition nl : string := String (ascii_of_nat 10) EmptyString.

Definition lines (indent : string) (texts : list string) : string :=
  fold_right (fun text acc => String.append text (String.append nl (String.append indent acc)))
             EmptyString texts.

Definition indent24 : string := "                        ".
Definition indent16 : string := "                ".
Definition fence : string := "```".

(** [logOut(summaryLogger, line)] *)
Definition logOut (line : string) : Run unit :=
  emit (SummaryLog (String.append line nl)).

Definition succeededBlock (basePath : string) : string :=
  lines indent24
    [ "<details>";
      String.append "<summary>Successfully generated types for base path '"
        (String.append basePath "'.</summary>");
      "</details>" ].

Definition entryFailedBlock (autoGenConfig : AutoGenConfig) (error : Exn) : string :=
  lines indent24
    [ "<details>";
      String.append "<summary>Failed to generate types for base path '"
        (String.append (Generate.basePath autoGenConfig)
           (String.append "' and namespace '"
              (String.append (namespace autoGenConfig) "'</summary>")));
      fence;
      errorText error;
      fence;
      "</details>" ].

Definition basePathFailedBlock (basePath : string) (error : Exn) : string :=
  lines indent16
    [ "<details>";
      String.append "<summary>Failed to generate types for base path '"
        (String.append basePath
           "' probably due to readme not found or due to any other file not found exception.</summary>");
      fence;
      errorText error;
      fence;
      "</details>" ].

(** [autoGenConfig.readmeFile || autoGenConfig.basePath] *)
Definition readmeFileOrBasePath (autoGenConfig : AutoGenConfig) : string :=
  match readmeFile autoGenConfig with
  | Some r => if String.eqb r EmptyString then Generate.basePath autoGenConfig else r
  | None => Generate.basePath autoGenConfig
  end.

(** The filter under [if (args['readme-files'])]: an entry stays when a
    listed file starts with ['specification/' + c.basePath], and then uses
    that file. *)
Fixpoint restrictToReadmeFiles (readmeFiles : list string) (entries : list AutoGenConfig)
  : list AutoGenConfig :=
  match entries with
  | [] => []
  | c :: others =>
      match find (fun f => startsWith f (String.append "specification/" (Generate.basePath c)))
                 readmeFiles with
      | Some r =>
          if String.eqb r EmptyString then restrictToReadmeFiles readmeFiles others
          else {| basePath := Generate.basePath c;
                  namespace := namespace c;
                  readmeFile := Some r;
                  disabledForAutogen := disabledForAutogen c |}
               :: restrictToReadmeFiles readmeFiles others
      | None => restrictToReadmeFiles readmeFiles others
      end
  end.

Definition pushConfigs (newConfigs : list C) : Run unit :=
  setLocals (fun l => {| schemaConfigs := schemaConfigs l ++ newConfigs;
                         packages := packages l |}).

Definition pushPackage (pkg : Package) : Run unit :=
  setLocals (fun l => {| schemaConfigs := schemaConfigs l;
                         packages := packages l ++ [pkg] |}).

(** The body of the inner [try]: what it leaves in [pkg.packageName]. *)
Definition generateEntry (localPath basePath : string) (autoGenConfig : AutoGenConfig)
  : Run string :=
  readme <~ ask (fun h => validateAndReturnReadmePath h localPath
                            (readmeFileOrBasePath autoGenConfig));;
  name <~ ask (fun h => getPackageString h readme);;
  newConfigs <~ call (GenerateSchemas readme autoGenConfig)
                     (fun h => generateSchemas h readme autoGenConfig);;
  pushConfigs newConfigs;;;
  logOut (succeededBlock basePath);;;
  ret name.

(** The body of the inner loop. *)
Definition processEntry (localPath basePath : string) (autoGenConfig : AutoGenConfig)
  : Run unit :=
  pkg <~ tryCatch
           (name <~ generateEntry localPath basePath autoGenConfig;;
            ret {| path := ["schemas"]; packageName := name; result := succeeded |})
           (fun error =>
              logOut (entryFailedBlock autoGenConfig error);;;
              ret {| path := ["schemas"];
                     packageName := Generate.basePath autoGenConfig;
                     result := failed |});;
  pushPackage pkg.

Definition entryLoop (localPath basePath : string) (filteredAutoGenList : list AutoGenConfig)
  : Run unit :=
  forEach (processEntry localPath basePath) filteredAutoGenList.

(** The body of the outer [try]. *)
Definition generateBasePath (args : Args) (localPath basePath : string) : Run unit :=
  readme <~ ask (fun h => validateAndReturnReadmePath h localPath basePath);;
  versions <~ ask (fun h => getApiVersionsByNamespace h readme);;
  let namespaces := map fst versions in
  entries <~ ask (fun h => findOrGenerateAutogenEntries h basePath namespaces);;
  let enabled := filter (fun x => negb (isDisabled x)) entries in
  let filteredAutoGenList :=
    match readmeFiles args with
    | Some files => restrictToReadmeFiles files enabled
    | None => enabled
    end in
  call (ClearRefs filteredAutoGenList)
       (fun h => clearAutoGeneratedSchemaRefs h filteredAutoGenList);;;
  entryLoop localPath basePath filteredAutoGenList.

(** The body of the outer loop. *)
Definition processBasePath (args : Args) (localPath basePath : string) : Run unit :=
  tryCatch (generateBasePath args localPath basePath)
           (fun error => logOut (basePathFailedBlock basePath error)).

Definition basePathLoop (args : Args) (localPath : string) (basePaths : list string)
  : Run unit :=
  forEach (processBasePath args localPath) basePaths.

(** The callback from the outer loop on.  [flatten] leaves a list of
    configuration objects as it is. *)
Definition generateAll (args : Args) (localPath : string) (basePaths : list string)
  : Run unit :=
  basePathLoop args localPath basePaths;;;
  l <~ getLocals;;
  call (SaveRefs (schemaConfigs l))
       (fun h => saveAutoGeneratedSchemaRefs h (schemaConfigs l));;;
  match outputPath args with
  | Some p =>
      if String.eqb p EmptyString then ret tt
      else
        resolved <~ ask (fun h => resolveAbsolutePath h p);;
        l' <~ getLocals;;
        call (WriteJson resolved (packages l'))
             (fun h => writeJsonFile h resolved (packages l'))
  | None => ret tt
  end.

Definition start : State C Locals :=
  {| history := []; locals := {| schemaConfigs := []; packages := [] |} |}.

End Program.
Arguments Locals : clear implicits.

End GenerateAll.

(* ================================================================= *)
(** ** The single-base-path generator *)

Module GenerateSingle.
Import Js Generate StepNotations.

(** Here [findOrGenerateAutogenEntries] is given the readme. *)
Class Collaborators (C : Type) : Type := {
  validateAndReturnReadmePath : list (Event C) -> string -> string -> completion string;
  findOrGenerateAutogenEntries : list (Event C) -> string -> string -> completion (list AutoGenConfig);
  generateSchemas : list (Event C) -> string -> AutoGenConfig -> completion (list C);
  saveAutoGeneratedSchemaRefs : list (Event C) -> list C -> completion unit
}.

Section Program.
Context {C : Type} {collaborators : Collaborators C}.

(** The only local that changes is [schemaConfigs]. *)
Definition Run (A : Type) : Type := Step C (list C) A.

Definition readmeNotFound (localPath basePath : string) : Exn :=
  Error (String.append "Unable to find a readme under '"
          (String.append localPath
            (String.append "' for base path '"
              (String.append basePath
                "'. Please try running 'npm run list-basepaths' to find the list of valid paths.")))).

(** The body of the loop over [autoGenEntries]. *)
Definition processEntry (readme : string) (autoGenConfig : AutoGenConfig) : Run unit :=
  if isDisabled autoGenConfig then ret tt
  else
    localSchemaConfigs <~ call (GenerateSchemas readme autoGenConfig)
                               (fun h => generateSchemas h readme autoGenConfig);;
    setLocals (fun schemaConfigs => schemaConfigs ++ localSchemaConfigs).

Definition entryLoop (readme : string) (autoGenEntries : list AutoGenConfig) : Run unit :=
  forEach (processEntry readme) autoGenEntries.

(** The callback, once [localPath] is known. *)
Definition generateSingle (localPath basePath : string) : Run unit :=
  readme <~ tryCatch (ask (fun h => validateAndReturnReadmePath h localPath basePath))
                     (fun _ => throw (readmeNotFound localPath basePath));;
  autoGenEntries <~ ask (fun h => findOrGenerateAutogenEntries h basePath readme);;
  entryLoop readme autoGenEntries;;;
  schemaConfigs <~ getLocals;;
  call (SaveRefs schemaConfigs) (fun h => saveAutoGeneratedSchemaRefs h schemaConfigs).

Definition start : State C (list C) := {| history := []; locals := [] |}.

End Program.

End GenerateSingle.

(* ================================================================= *)
(** ** Concrete documents and collaborators

    Small instances of the interfaces, on which the definitions above can be
    run. *)

Module Examples.
Import Js Json.

(** *** A schema store with two resource schema files *)

Definition base : string := "https://schema.management.azure.com/schemas".

Definition ref (relative : string) : JValue :=
  JObject [("$ref", JString (String.append base relative))].

Definition enumOf (values : list string) : JValue :=
  JObject [("enum", JArray (map JString values))].

Definition widgets2020 : JValue :=
  JObject [("type", JString "object");
           ("properties",
            JObject [("type", enumOf ["Contoso.Widgets/widgets"]);
                     ("apiVersion", enumOf ["2020-01-01"])])].

(** A definition with a [type] enumeration and no [apiVersion]. *)
Definition gadgets2020 : JValue :=
  JObject [("type", JString "object");
           ("properties",
            JObject [("type", enumOf ["Contoso.Widgets/gadgets"])])].

Definition widgets2021 : JValue :=
  JObject [("type", JString "object");
           ("properties",
            JObject [("type", enumOf ["contoso.widgets/Widgets"]);
                     ("apiVersion", enumOf ["2020-01-01"; "2021-01-01"])])].

Definition sprockets2021 : JValue :=
  JObject [("properties",
            JObject [("type", enumOf ["Contoso.Widgets/sprockets"; "Contoso.Widgets/cogs"]);
                     ("apiVersion", enumOf ["2021-01-01"; "2021-06-01"])])].

Definition deploymentTemplate : JValue :=
  JObject [("id", JString "https://schema.management.azure.com/schemas/2019-04-01/deploymentTemplate.json#");
           ("properties",
            JObject [("resources",
                      JObject [("type", JString "array");
                               ("items",
                                JObject [("oneOf",
                                          JArray [ref "/common/autogeneratedResources.json#/allResourceDefinitions";
                                                  JObject [("$ref", JString "#/definitions/resourceBase")]])])])])].

Definition autogeneratedResources : JValue :=
  JObject [("allResourceDefinitions",
            JObject [("oneOf",
                      JArray [ref "/2020-01-01/Contoso.Widgets.json#/resourceDefinitions/widgets";
                              ref "/2021-01-01/Contoso.Widgets.json#/resourceDefinitions/widgets";
                              ref "/2020-01-01/Contoso.Widgets.json#/resourceDefinitions/widgets"])])].

Definition files : list (string * JValue) :=
  [ ("2019-04-01/deploymentTemplate.json", deploymentTemplate);
    ("common/definitions.json", JObject []);
    ("common/autogeneratedResources.json", autogeneratedResources);
    ("common/manuallyAddedResources.json", JObject []);
    ("2020-01-01/Contoso.Widgets.json",
     JObject [("resourceDefinitions",
               JObject [("widgets", widgets2020); ("gadgets", gadgets2020)])]);
    ("2021-01-01/Contoso.Widgets.json",
     JObject [("resourceDefinitions",
               JObject [("widgets", widgets2021); ("sprockets", sprockets2021)])]) ].

#[export] Instance store : ListResources.SchemaStore := {
  ListResources.schemasBaseUri := base;
  ListResources.readJsonFile relative :=
    match ownProperty relative files with
    | Some document => Ok document
    | None => Throw (Error (String.append "ENOENT: no such file or directory, open " relative))
    end
}.

Definition widgetsRef2020 : string :=
  String.append base "/2020-01-01/Contoso.Widgets.json#/resourceDefinitions/widgets".
Definition widgetsRef2021 : string :=
  String.append base "/2021-01-01/Contoso.Widgets.json#/resourceDefinitions/widgets".
Definition gadgetsRef : string :=
  String.append base "/2020-01-01/Contoso.Widgets.json#/resourceDefinitions/gadgets".
Definition sprocketsRef : string :=
  String.append base "/2021-01-01/Contoso.Widgets.json#/resourceDefinitions/sprockets".

(** What the two [widgets] definitions insert into the table. *)
Definition widgetInsertions : list ListResources.Resource :=
  [ {| ListResources.apiVersion := "2020-01-01"; ListResources.type := "Contoso.Widgets/widgets" |};
    {| ListResources.apiVersion := "2020-01-01"; ListResources.type := "contoso.widgets/Widgets" |};
    {| ListResources.apiVersion := "2021-01-01"; ListResources.type := "contoso.widgets/Widgets" |} ].


(** A root document with a [null] default. *)
Definition withNullDefault : JValue :=
  JObject [("definitions",
            JObject [("expression",
                      JObject [("type", JString "string");
                               ("default", JNull)])]);
           ("$ref", JString "#/definitions/expression")].

(** *** Collaborators of the generation programs; a configuration is a name *)

Import Generate.

Definition entry (basePath namespace : string) : AutoGenConfig :=
  {| basePath := basePath; namespace := namespace;
     readmeFile := None; disabledForAutogen := None |}.

Definition disabledEntry (basePath namespace : string) : AutoGenConfig :=
  {| basePath := basePath; namespace := namespace;
     readmeFile := None; disabledForAutogen := Some true |}.

Definition readmeOf (localPath basePath : string) : string :=
  String.append localPath
    (String.append "/specification/" (String.append basePath "/readme.md")).

(** No readme below [svcMissing]. *)
Definition findReadme (localPath basePath : string) : completion string :=
  if startsWith basePath "svcMissing/" then
    Throw (Error (String.append "Unable to find a readme for " basePath))
  else Ok (readmeOf localPath basePath).

(** Generation fails for the namespace [Microsoft.Broken]. *)
Definition generate (readme : string) (autoGenConfig : AutoGenConfig) : completion (list string) :=
  if String.eqb (namespace autoGenConfig) "Microsoft.Broken" then
    Throw (Error "autorest exited with code 1")
  else Ok [String.append (namespace autoGenConfig) ".json"].

Definition entriesOf (basePath : string) : list AutoGenConfig :=
  [ entry basePath "Microsoft.First";
    entry basePath "Microsoft.Broken";
    entry basePath "Microsoft.Third" ].

#[export] Instance batch : GenerateAll.Collaborators string := {
  GenerateAll.validateAndReturnReadmePath _ localPath basePath := findReadme localPath basePath;
  GenerateAll.getApiVersionsByNamespace _ _ := Ok [("Microsoft.First", ["2020-01-01"])];
  GenerateAll.findOrGenerateAutogenEntries _ basePath _ := Ok (entriesOf basePath);
  GenerateAll.clearAutoGeneratedSchemaRefs _ _ := Ok tt;
  GenerateAll.getPackageString _ readme := Ok (String.append "pkg:" readme);
  GenerateAll.generateSchemas _ readme autoGenConfig := generate readme autoGenConfig;
  GenerateAll.saveAutoGeneratedSchemaRefs _ _ := Ok tt;
  GenerateAll.resolveAbsolutePath _ p := Ok p;
  GenerateAll.writeJsonFile _ _ _ := Ok tt
}.

Definition svcA : string := "svcA/resource-manager".
Definition svcMissing : string := "svcMissing/resource-manager".
Definition svcAReadme : string := "/specs/specification/svcA/resource-manager/readme.md".

Definition noArgs : GenerateAll.Args :=
  {| GenerateAll.readmeFiles := None; GenerateAll.outputPath := None |}.

#[export] Instance single : GenerateSingle.Collaborators string := {
  GenerateSingle.validateAndReturnReadmePath _ localPath basePath := findReadme localPath basePath;
  GenerateSingle.findOrGenerateAutogenEntries _ basePath _ :=
    Ok [ entry basePath "Microsoft.First";
         disabledEntry basePath "Microsoft.Off";
         entry basePath "Microsoft.Broken";
         entry basePath "Microsoft.Third" ];
  GenerateSingle.generateSchemas _ readme autoGenConfig := generate readme autoGenConfig;
  GenerateSingle.saveAutoGeneratedSchemaRefs _ _ := Ok tt
}.

(** The single-base-path run on [svcA], when the third entry is reached. *)
Definition afterFirst : Generate.State string (list string) :=
  {| history := [GenerateSchemas svcAReadme (entry svcA "Microsoft.First")];
     locals := ["Microsoft.First.json"] |}.

(** What the summary log is to read for [svcMissing], whose readme is not
    found. *)
Definition svcMissingBlock : string :=
"<details>
                <summary>Failed to generate types for base path 'svcMissing/resource-manager' probably due to readme not found or due to any other file not found exception.</summary>
                ```
                Error: Unable to find a readme for svcMissing/resource-manager
                ```
                </details>
                
".

End Examples.


(* ================================================================= *)
(** ** The inner loops, by name

    The loops that [findAllReferences] and [crossProduct] run in place,
    written as functions of their own; the properties section shows that
    they are the same loops. *)

Module Unfolded.
Import Js Json JsNotations ListResources.

(** The three loops of [findAllReferences]. *)
Definition eachElement (values : list JValue) : completion (list string) :=
  (fix each (values : list JValue) : completion (list string) :=
     match values with
     | [] => Ok []
     | value :: others =>
         foundRefs <- findAllReferences value;;
         refs <- each others;;
         Ok (foundRefs ++ refs)
     end) values.

Definition visit (key : string) (value : JValue) : completion (list string) :=
  match value with
  | JArray elems => eachElement elems
  | JObject _ | JNull => findAllReferences value
  | JString s => if String.eqb key "$ref" then Ok [s] else Ok []
  | JBool _ | JNumber _ => Ok []
  end.

Fixpoint overIndices (i : nat) (values : list JValue) : completion (list string) :=
  match values with
  | [] => Ok []
  | value :: others =>
      found <- visit (indexKey i) value;;
      refs <- overIndices (S i) others;;
      Ok (found ++ refs)
  end.

Fixpoint overFields (entries : list (string * JValue)) : completion (list string) :=
  match entries with
  | [] => Ok []
  | (key, value) :: others =>
      found <- visit key value;;
      refs <- overFields others;;
      Ok (found ++ refs)
  end.

(** The row that [crossProduct] builds for one element of [resourceTypes]. *)
Definition rowOf (apiVersions t : JValue) : completion (list Resource) :=
  match apiVersions with
  | JArray versions =>
      type <- declaredString t;;
      vs <- declaredStrings versions;;
      Ok (map (fun apiVersion => {| apiVersion := apiVersion; type := type |}) vs)
  | _ => Throw (TypeError "apiVersions.map is not a function")
  end.

Fixpoint rowsOf (apiVersions : JValue) (remaining : list JValue) : completion (list Resource) :=
  match remaining with
  | [] => Ok []
  | t :: others =>
      row <- rowOf apiVersions t;;
      rest <- rowsOf apiVersions others;;
      Ok (row ++ rest)
  end.

End Unfolded.

(* ================================================================= *)
(** ** The vocabulary of the stated properties *)

Module Stated.
Import Js Json ListResources.

(** The reference markers of a value, as the specification describes them:
    every string found under the key [$ref], at any depth, inside objects
    and inside sequences, in the order of the fields and elements, repeated
    as often as it occurs. *)
Fixpoint markers (value : JValue) : list string :=
  match value with
  | JObject fields =>
      (fix inFields (fs : list (string * JValue)) : list string :=
         match fs with
         | [] => []
         | (key, v) :: others =>
             match v with
             | JString s => if String.eqb key "$ref" then [s] else []
             | _ => markers v
             end ++ inFields others
         end) fields
  | JArray elems =>
      (fix inElems (vs : list JValue) : list string :=
         match vs with
         | [] => []
         | v :: others => markers v ++ inElems others
         end) elems
  | _ => []
  end.

(** No [null] anywhere in the value. *)
Fixpoint nullFree (value : JValue) : bool :=
  match value with
  | JNull => false
  | JObject fields =>
      (fix inFields (fs : list (string * JValue)) : bool :=
         match fs with
         | [] => true
         | (_, v) :: others => andb (nullFree v) (inFields others)
         end) fields
  | JArray elems =>
      (fix inElems (vs : list JValue) : bool :=
         match vs with
         | [] => true
         | v :: others => andb (nullFree v) (inElems others)
         end) elems
  | _ => true
  end.

(** [node.a.b], read without throwing: [undefined] where the path stops. *)
Definition field (value : option JValue) (key : string) : option JValue :=
  match getProp value key with
  | Ok found => found
  | Throw _ => None
  end.

(** The four things a resource definition is expected to declare under its
    [properties]: [type], the enumeration of [type], [apiVersion], the
    enumeration of [apiVersion].  Declared means truthy, which is what the
    program tests. *)
Definition typeDeclaration (node : JValue) : option JValue :=
  field (field (Some node) "properties") "type".
Definition typeEnumeration (node : JValue) : option JValue :=
  field (typeDeclaration node) "enum".
Definition apiVersionDeclaration (node : JValue) : option JValue :=
  field (field (Some node) "properties") "apiVersion".
Definition apiVersionEnumeration (node : JValue) : option JValue :=
  field (apiVersionDeclaration node) "enum".

Definition declaresAllFour (node : JValue) : bool :=
  truthy (typeDeclaration node) && truthy (typeEnumeration node)
  && truthy (apiVersionDeclaration node) && truthy (apiVersionEnumeration node).

Definition lacksAllFour (node : JValue) : bool :=
  negb (truthy (typeDeclaration node)) && negb (truthy (typeEnumeration node))
  && negb (truthy (apiVersionDeclaration node)) && negb (truthy (apiVersionEnumeration node)).

(** Every pair of a type and an API version, types first. *)
Definition pairsOf (types versions : list string) : list ListResources.Resource :=
  flat_map (fun t => map (fun v => {| ListResources.apiVersion := v;
                                      ListResources.type := t |}) versions) types.

(** Two type strings that differ at most in case. *)
Definition sameType (a b : string) : bool :=
  String.eqb (toLowerCase a) (toLowerCase b).

(** The API versions of the descriptors of one type, in insertion order. *)
Definition versionsInserted (key : string) (inserted : list ListResources.Resource) : list string :=
  map ListResources.apiVersion
      (filter (fun d => sameType key (ListResources.type d)) inserted).

(** Whether a character occurs in a string. *)
Fixpoint occurs (c : ascii) (s : string) : bool :=
  match s with
  | EmptyString => false
  | String a rest => orb (Ascii.eqb a c) (occurs c rest)
  end.

(** What one step of the loop contributes, in the words of [markers]. *)
Definition markersUnder (key : string) (value : JValue) : list string :=
  match value with
  | JString s => if String.eqb key "$ref" then [s] else []
  | _ => markers value
  end.

Definition resolved (v : JValue) : Prop :=
  nullFree v = true ->
  findAllReferences v = Ok (markers v)
  /\ forall key, Unfolded.visit key v = Ok (markersUnder key v).

(** What holds of the table after the descriptors [inserted] went in:
    no two keys differ in case only; under each key, the versions of the
    descriptors of that type, one per insertion; every descriptor has its
    key. *)
Record Filed (c : Catalog) (inserted : list Resource) : Prop := {
  keys_apart : NoDup (map toLowerCase (map fst c));
  versions_filed : forall key versions,
    In (key, versions) c -> versions = versionsInserted key inserted;
  types_filed : forall d,
    In d inserted -> exists key, In key (map fst c) /\ sameType key (type d) = true
}.

Section Roots.
Context {store : SchemaStore}.

(** What one root contributes: it is read, and its references are found. *)
Definition collects (rootSchemaPath : string) (found : list string) : Prop :=
  exists rootSchema,
    readSchema rootSchemaPath = Ok rootSchema
    /\ findAllReferences rootSchema = Ok found.

End Roots.

(** An entry that is not disabled. *)
Definition enabled (autoGenConfig : Generate.AutoGenConfig) : bool :=
  negb (Generate.isDisabled autoGenConfig).

End Stated.

(* ================================================================= *)
(** ** The summary log, as it reads *)

Module LogText.

Definition newline : string := String (ascii_of_nat 10) EmptyString.

(** Lines, each one ended by a line feed. *)
Fixpoint written (texts : list string) : string :=
  match texts with
  | [] => EmptyString
  | text :: others => String.append text (String.append newline (written others))
  end.

(** What the logger is handed for a base path that failed as a whole: a
    markdown block whose summary line names the base path and which holds
    the text of the thrown error between two fences.  The lines after the
    first are indented by sixteen spaces, and the last line is that
    indentation alone. *)
Definition basePathFailure (basePath thrown : string) : string :=
  written
    [ "<details>";
      String.append "                <summary>Failed to generate types for base path '"
        (String.append basePath
           "' probably due to readme not found or due to any other file not found exception.</summary>");
      "                ```";
      String.append "                " thrown;
      "                ```";
      "                </details>";
      "                " ].

(** What the logger is handed for an entry that was generated, under the
    base path [basePath] of the outer loop; the indentation is of
    twenty-four spaces. *)
Definition entrySuccess (basePath : string) : string :=
  written
    [ "<details>";
      String.append "                        <summary>Successfully generated types for base path '"
        (String.append basePath "'.</summary>");
      "                        </details>";
      "                        " ].

(** What the logger is handed for an entry whose generation threw: the
    summary line names the base path and the namespace of the entry, and
    the text of the thrown error stands between the fences. *)
Definition entryFailure (basePath namespace thrown : string) : string :=
  written
    [ "<details>";
      String.append "                        <summary>Failed to generate types for base path '"
        (String.append basePath
           (String.append "' and namespace '"
              (String.append namespace "'</summary>")));
      "                        ```";
      String.append "                        " thrown;
      "                        ```";
      "                        </details>";
      "                        " ].

End LogText.

Module StatedBatch.
Import Js Generate GenerateAll.

Section Batch.
Context {C : Type} {collaborators : Collaborators C}.

(** What the generation of one entry comes to, after the events [h]: the
    package identifier when the readme is found, the identifier is read and
    the generation routine returns; a throw when one of the three throws. *)
Definition generation (localPath : string) (autoGenConfig : AutoGenConfig)
  (h : list (Event C)) : completion string :=
  match validateAndReturnReadmePath h localPath (readmeFileOrBasePath autoGenConfig) with
  | Throw e => Throw e
  | Ok readme =>
      match getPackageString h readme with
      | Throw e => Throw e
      | Ok name =>
          match generateSchemas h readme autoGenConfig with
          | Throw e => Throw e
          | Ok _ => Ok name
          end
      end
  end.

(** The record an entry is owed. *)
Definition recordOf (localPath : string) (autoGenConfig : AutoGenConfig)
  (h : list (Event C)) : Package :=
  match generation localPath autoGenConfig h with
  | Ok name => {| path := ["schemas"]; packageName := name; result := succeeded |}
  | Throw _ => {| path := ["schemas"];
                  packageName := Generate.basePath autoGenConfig;
                  result := failed |}
  end.

End Batch.

End StatedBatch.

(* ================================================================= *)
(** ** Further vocabulary: errors, first insertions, what a loop leaves *)

Module Further.
Import Js Json ListResources Stated.

(** The three [TypeError]s of the listing. *)
Definition nullKeysError : Exn :=
  TypeError "Cannot convert undefined or null to object".
Definition undefinedPropertyError (key : string) : Exn :=
  TypeError (String.append "Cannot read properties of undefined (reading '"
               (String.append key "')")).
Definition noFragmentError : Exn :=
  TypeError "Cannot read properties of undefined (reading 'substring')".

(** What the resolver comes to, value by value. *)
Definition settled (v : JValue) : Prop :=
  findAllReferences v
  = (if nullFree v then Ok (markers v) else Throw nullKeysError)
  /\ forall key,
       Unfolded.visit key v
       = (if nullFree v then Ok (markersUnder key v) else Throw nullKeysError).

(** [key] is the spelling of the first inserted descriptor of its type. *)
Definition firstOfItsType (key : string) (inserted : list Resource) : Prop :=
  exists before d after,
    inserted = before ++ d :: after
    /\ type d = key
    /\ Forall (fun earlier => sameType key (type earlier) = false) before.

End Further.

(* ================================================================= *)
(** ** Further concrete inputs *)

Module FurtherExamples.
Import Js Json Generate.

(** The first of the two schema files of [Examples.files]. *)
Definition contoso2020 : JValue :=
  JObject [("resourceDefinitions",
            JObject [("widgets", Examples.widgets2020);
                     ("gadgets", Examples.gadgets2020)])].

(** A reference into that file, along a path it does not have. *)
Definition strayRef : string :=
  String.append Examples.base
    "/2020-01-01/Contoso.Widgets.json#/definitions/widgets/properties".

(** The example store, with a [null] in the second root document. *)
#[export] Instance nullStore : ListResources.SchemaStore := {
  ListResources.schemasBaseUri := Examples.base;
  ListResources.readJsonFile relative :=
    if String.eqb relative "common/definitions.json" then Ok Examples.withNullDefault
    else ListResources.readJsonFile (SchemaStore := Examples.store) relative
}.

End FurtherExamples.

(* ================================================================= *)
(** ** Further vocabulary for the batch orchestrator *)

Module FurtherBatch.
Import Js Generate GenerateAll StatedBatch.

(** The entry [c], generated from the file [r]. *)
Definition withReadme (c : AutoGenConfig) (r : string) : AutoGenConfig :=
  {| basePath := Generate.basePath c;
     namespace := namespace c;
     readmeFile := Some r;
     disabledForAutogen := disabledForAutogen c |}.

(** The first listed file under the base path of [c], if there is one. *)
Definition listedFor (readmeFiles : list string) (c : AutoGenConfig) : option string :=
  find (fun f => startsWith f (String.append "specification/" (Generate.basePath c)))
       readmeFiles.

Section Batch.
Context {C : Type}.

(** The lines of the summary log, oldest first. *)
Definition summaryLines (h : list (Event C)) : list string :=
  flat_map (fun ev => match ev with
                      | SummaryLog data => [data]
                      | _ => []
                      end) h.

(** What the loop over the base paths may do: clear, write to the summary
    log, and generate for entries that are not disabled and, under an
    allow-list, use a listed file.  It does not save and does not write the
    report. *)
Definition loopEvent (args : Args) (ev : Event C) : Prop :=
  match ev with
  | GenerateSchemas _ autoGenConfig =>
      isDisabled autoGenConfig = false
      /\ forall files, readmeFiles args = Some files ->
                       exists r, readmeFile autoGenConfig = Some r /\ In r files
  | ClearRefs _ | SummaryLog _ => True
  | SaveRefs _ | WriteJson _ _ => False
  end.

(** What the inner loop may do for the entries it is given. *)
Definition entryEvent (entries : list AutoGenConfig) (ev : Event C) : Prop :=
  match ev with
  | GenerateSchemas _ autoGenConfig => In autoGenConfig entries
  | SummaryLog _ => True
  | ClearRefs _ | SaveRefs _ | WriteJson _ _ => False
  end.

Context {collaborators : Collaborators C}.

(** The text an entry is owed in the summary log. *)
Definition blockOf (localPath basePath : string) (autoGenConfig : AutoGenConfig)
  (h : list (Event C)) : string :=
  match generation localPath autoGenConfig h with
  | Ok _ => LogText.entrySuccess basePath
  | Throw error =>
      LogText.entryFailure (Generate.basePath autoGenConfig) (namespace autoGenConfig)
        (errorText error)
  end.

(** What the three calls that come first in the outer [try] give, after the
    events [h]: the entries left by both filters, or the throw of the first
    call that throws. *)
Definition entriesFound (args : Args) (localPath basePath : string) (h : list (Event C))
  : completion (list AutoGenConfig) :=
  match validateAndReturnReadmePath h localPath basePath with
  | Throw e => Throw e
  | Ok readme =>
      match getApiVersionsByNamespace h readme with
      | Throw e => Throw e
      | Ok versions =>
          match findOrGenerateAutogenEntries h basePath (map fst versions) with
          | Throw e => Throw e
          | Ok entries =>
              let enabled := filter (fun x => negb (isDisabled x)) entries in
              Ok (match readmeFiles args with
                  | Some files => restrictToReadmeFiles files enabled
                  | None => enabled
                  end)
          end
      end
  end.

(** Everything that comes before the inner loop: the calls it records, and
    the entries the loop is to run over, or the throw that keeps it from
    running. *)
Definition beforeTheEntries (args : Args) (localPath basePath : string)
  (h : list (Event C)) : list (Event C) * completion (list AutoGenConfig) :=
  match entriesFound args localPath basePath h with
  | Throw e => ([], Throw e)
  | Ok entries =>
      ([ClearRefs entries],
       match clearAutoGeneratedSchemaRefs h entries with
       | Throw e => Throw e
       | Ok _ => Ok entries
       end)
  end.

(** The configurations an entry adds. *)
Definition configsOf (localPath : string) (autoGenConfig : AutoGenConfig)
  (h : list (Event C)) : list C :=
  match validateAndReturnReadmePath h localPath (readmeFileOrBasePath autoGenConfig) with
  | Throw _ => []
  | Ok readme =>
      match getPackageString h readme with
      | Throw _ => []
      | Ok _ =>
          match generateSchemas h readme autoGenConfig with
          | Throw _ => []
          | Ok newConfigs => newConfigs
          end
      end
  end.

End Batch.

(** Collaborators under which clearing fails for [svcLocked] and saving
    fails always. *)
#[export] Instance locked : GenerateAll.Collaborators string := {
  GenerateAll.validateAndReturnReadmePath _ localPath basePath :=
    Examples.findReadme localPath basePath;
  GenerateAll.getApiVersionsByNamespace _ _ := Ok [("Microsoft.First", ["2020-01-01"])];
  GenerateAll.findOrGenerateAutogenEntries _ basePath _ := Ok (Examples.entriesOf basePath);
  GenerateAll.clearAutoGeneratedSchemaRefs _ entries :=
    if existsb (fun c => startsWith (Generate.basePath c) "svcLocked/") entries
    then Throw (Error "EBUSY: resource busy or locked")
    else Ok tt;
  GenerateAll.getPackageString _ readme := Ok (String.append "pkg:" readme);
  GenerateAll.generateSchemas _ readme autoGenConfig := Examples.generate readme autoGenConfig;
  GenerateAll.saveAutoGeneratedSchemaRefs _ _ := Throw (Error "EACCES: permission denied");
  GenerateAll.resolveAbsolutePath _ p := Ok (String.append "/work/" p);
  GenerateAll.writeJsonFile _ _ _ := Ok tt
}.

Definition svcLocked : string := "svcLocked/resource-manager".

(** What the summary log is to read for [svcLocked], whose references
    cannot be cleared. *)
Definition svcLockedBlock : string :=
"<details>
                <summary>Failed to generate types for base path 'svcLocked/resource-manager' probably due to readme not found or due to any other file not found exception.</summary>
                ```
                Error: EBUSY: resource busy or locked
                ```
                </details>
                
".

(** What the summary log is to read for the entry of [svcA] whose
    generation fails. *)
Definition brokenEntryBlock : string :=
"<details>
                        <summary>Failed to generate types for base path 'svcA/resource-manager' and namespace 'Microsoft.Broken'</summary>
                        ```
                        Error: autorest exited with code 1
                        ```
                        </details>
                        
".

Definition reportArgs : GenerateAll.Args :=
  {| GenerateAll.readmeFiles := None; GenerateAll.outputPath := Some "packages.json" |}.

Definition listedArgs : GenerateAll.Args :=
  {| GenerateAll.readmeFiles :=
       Some ["specification/svcA/resource-manager/readme.md"];
     GenerateAll.outputPath := None |}.

End FurtherBatch.

(* ================================================================= *)
(** ** A single-base-path run in which every entry generates *)

Module FurtherSingle.
Import Js Generate.



End FurtherSingle.

(* ================================================================= *)
(** * Properties *)

(** ** Strings *)

Module JsFacts.
Import Js.

Lemma compare_refl (s : string) : String.compare s s = Eq.
Proof.
  pose proof (String.compare_antisym s s) as H.
  destruct (String.compare s s); simpl in H; congruence.
Qed.

Lemma lowerCaseCompare_zero (a b : string) :
  Z.eqb (lowerCaseCompare a b) 0 = String.eqb (toLowerCase a) (toLowerCase b).
Proof.
  unfold lowerCaseCompare.
  destruct (String.eqb_spec (toLowerCase a) (toLowerCase b)) as [E | N].
  - rewrite E, compare_refl. reflexivity.
  - destruct (String.compare (toLowerCase a) (toLowerCase b)) eqn:Hc; try reflexivity.
    apply String.compare_eq_iff in Hc. contradiction.
Qed.

Lemma lowerCaseCompare_eq (a b : string) :
  lowerCaseCompare a b = 0%Z <-> toLowerCase a = toLowerCase b.
Proof.
  rewrite <- String.eqb_eq, <- lowerCaseCompare_zero. apply iff_sym, Z.eqb_eq.
Qed.

(** A decimal numeral is never the reference key. *)
Lemma indexKey_not_ref (i : nat) : String.eqb (Json.indexKey i) "$ref" = false.
Proof.
  unfold Json.indexKey.
  destruct (Nat.to_uint i); reflexivity.
Qed.

(** The text of an Error object: its name alone when it has no message. *)
Example errorText_of_errors :
  errorText (Error "ENOENT: no such file") = "Error: ENOENT: no such file"
  /\ errorText (Error EmptyString) = "Error"
  /\ errorText (TypeError "x is not a function") = "TypeError: x is not a function"
  /\ errorText (TypeError EmptyString) = "TypeError".
Proof. repeat split. Qed.

(** An own property comes before an inherited member of its name; a name
    that is neither reads as [undefined]; an inherited member is not
    followed. *)
Example getProp_of_members :
  Json.getProp (Some (Json.JObject [("constructor", Json.JBool true)])) "constructor"
  = Ok (Some (Json.JBool true))
  /\ Json.getProp (Some (Json.JObject [])) "widgets" = Ok None
  /\ Json.getProp (Some (Json.JObject [])) "constructor"
     = Throw (Untyped "member inherited from a built-in prototype")
  /\ Json.getProp (Some (Json.JArray [])) "map"
     = Throw (Untyped "member inherited from a built-in prototype")
  /\ Json.getProp (Some (Json.JObject [])) "map" = Ok None.
Proof. repeat split. Qed.

End JsFacts.

(** ** The reference resolver *)

Module ResolverFacts.
Import Js Json JsNotations ListResources Unfolded Stated.

(** Induction on a JSON value, with the property available for every
    element of an array and every field value of an object. *)
Lemma JValue_nested_ind (P : JValue -> Prop)
  (Hnull : P JNull)
  (Hbool : forall b, P (JBool b))
  (Hnumber : forall n, P (JNumber n))
  (Hstring : forall s, P (JString s))
  (Harray : forall elems, Forall P elems -> P (JArray elems))
  (Hobject : forall fields, Forall (fun kv => P (snd kv)) fields -> P (JObject fields)) :
  forall v, P v.
Proof.
  fix self 1.
  intros [ | b | n | s | elems | fields ].
  - exact Hnull.
  - apply Hbool.
  - apply Hnumber.
  - apply Hstring.
  - apply Harray.
    induction elems as [ | v rest IH ]; constructor; [ apply self | exact IH ].
  - apply Hobject.
    induction fields as [ | [k v] rest IH ]; constructor; [ apply self | exact IH ].
Qed.

Lemma findAllReferences_array (elems : list JValue) :
  findAllReferences (JArray elems) = overIndices 0 elems.
Proof.
  simpl. generalize 0%nat.
  induction elems as [ | v rest IH ]; intro i; [ reflexivity | ].
  simpl. rewrite IH. reflexivity.
Qed.

Lemma findAllReferences_object (fields : list (string * JValue)) :
  findAllReferences (JObject fields) = overFields fields.
Proof.
  simpl.
  induction fields as [ | [k v] rest IH ]; [ reflexivity | ].
  simpl. rewrite IH. reflexivity.
Qed.

Lemma markers_array_cons (v : JValue) (rest : list JValue) :
  markers (JArray (v :: rest)) = markers v ++ markers (JArray rest).
Proof. reflexivity. Qed.

Lemma markers_object_cons (key : string) (v : JValue) (rest : list (string * JValue)) :
  markers (JObject ((key, v) :: rest))
  = match v with
    | JString s => if String.eqb key "$ref" then [s] else []
    | _ => markers v
    end ++ markers (JObject rest).
Proof. reflexivity. Qed.

Lemma nullFree_array_cons (v : JValue) (rest : list JValue) :
  nullFree (JArray (v :: rest)) = andb (nullFree v) (nullFree (JArray rest)).
Proof. reflexivity. Qed.

Lemma nullFree_object_cons (key : string) (v : JValue) (rest : list (string * JValue)) :
  nullFree (JObject ((key, v) :: rest)) = andb (nullFree v) (nullFree (JObject rest)).
Proof. reflexivity. Qed.

Lemma eachElement_resolved (elems : list JValue) :
  Forall resolved elems -> nullFree (JArray elems) = true ->
  eachElement elems = Ok (markers (JArray elems)).
Proof.
  induction 1 as [ | v rest Hv _ IH ]; intro Hfree; [ reflexivity | ].
  rewrite nullFree_array_cons in Hfree. apply andb_true_iff in Hfree as [Hv' Hrest].
  rewrite markers_array_cons.
  change (eachElement (v :: rest))
    with (foundRefs <- findAllReferences v;; refs <- eachElement rest;; Ok (foundRefs ++ refs)).
  destruct (Hv Hv') as [-> _]. simpl. rewrite (IH Hrest). reflexivity.
Qed.

Lemma overIndices_resolved (elems : list JValue) :
  Forall resolved elems -> nullFree (JArray elems) = true ->
  forall i, overIndices i elems = Ok (markers (JArray elems)).
Proof.
  induction 1 as [ | v rest Hv _ IH ]; intros Hfree i; [ reflexivity | ].
  rewrite nullFree_array_cons in Hfree. apply andb_true_iff in Hfree as [Hv' Hrest].
  rewrite markers_array_cons. simpl overIndices.
  destruct (Hv Hv') as [_ Hvisit]. rewrite Hvisit. simpl.
  rewrite (IH Hrest). simpl. f_equal. f_equal.
  destruct v; try reflexivity.
  simpl. rewrite JsFacts.indexKey_not_ref. reflexivity.
Qed.

Lemma overFields_resolved (fields : list (string * JValue)) :
  Forall (fun kv => resolved (snd kv)) fields -> nullFree (JObject fields) = true ->
  overFields fields = Ok (markers (JObject fields)).
Proof.
  induction 1 as [ | [key v] rest Hv _ IH ]; intro Hfree; [ reflexivity | ].
  rewrite nullFree_object_cons in Hfree. apply andb_true_iff in Hfree as [Hv' Hrest].
  rewrite markers_object_cons. simpl overFields.
  destruct (Hv Hv') as [_ Hvisit]. rewrite Hvisit. simpl.
  rewrite (IH Hrest). reflexivity.
Qed.

Lemma resolved_all (v : JValue) : resolved v.
Proof.
  induction v as [ | b | n | s | elems IH | fields IH ] using JValue_nested_ind;
    intro Hfree.
  - discriminate.
  - split; reflexivity.
  - split; reflexivity.
  - split; [ reflexivity | intro key; simpl; destruct (String.eqb key "$ref"); reflexivity ].
  - split.
    + rewrite findAllReferences_array. apply overIndices_resolved; assumption.
    + intro key. simpl visit. apply eachElement_resolved; assumption.
  - assert (findAllReferences (JObject fields) = Ok (markers (JObject fields))) as H.
    { rewrite findAllReferences_object. apply overFields_resolved; assumption. }
    split; [ exact H | intro key; exact H ].
Qed.

(** Without [null], the resolver returns: and what it returns is every
    reference marker of the value, in traversal order, duplicates included. *)
Theorem findAllReferences_returns_markers (input : JValue) :
  nullFree input = true -> findAllReferences input = Ok (markers input).
Proof.
  intro Hfree. exact (proj1 (resolved_all input Hfree)).
Qed.

Lemma findAllReferences_returns_markers_witness :
  nullFree Examples.autogeneratedResources = true
  /\ findAllReferences Examples.autogeneratedResources
     = Ok [Examples.widgetsRef2020; Examples.widgetsRef2021; Examples.widgetsRef2020].
Proof.
  split; [ reflexivity | ].
  exact (findAllReferences_returns_markers Examples.autogeneratedResources eq_refl).
Defined.

(** C2: a [null] field value makes the resolver throw.  [typeof null] is
    ['object'], so the value is handed to the recursive call, whose
    [Object.keys(null)] raises a [TypeError]: for this JSON-shaped value no
    list of markers is returned, although it holds one marker. *)
Theorem findAllReferences_throws_on_null :
  findAllReferences Examples.withNullDefault
  = Throw (TypeError "Cannot convert undefined or null to object")
  /\ markers Examples.withNullDefault = ["#/definitions/expression"].
Proof.
  split; reflexivity.
Qed.

End ResolverFacts.

(** ** The resource catalog *)

Module CatalogFacts.
Import Js Json ListResources Stated.

Lemma sameType_refl (a : string) : sameType a a = true.
Proof. apply String.eqb_refl. Qed.

Lemma sameType_trans (a b c : string) :
  sameType a b = true -> sameType b c = true -> sameType a c = true.
Proof.
  unfold sameType. rewrite !String.eqb_eq. congruence.
Qed.

Lemma sameType_sym (a b : string) : sameType a b = sameType b a.
Proof. apply String.eqb_sym. Qed.

(** The predicate given to [find] is [sameType]. *)
Lemma find_predicate (t key : string) :
  Z.eqb (lowerCaseCompare key t) 0 = sameType key t.
Proof. apply JsFacts.lowerCaseCompare_zero. Qed.

Lemma pushAt_keys (k v : string) (c : Catalog) :
  map fst (pushAt k v c) = map fst c.
Proof.
  induction c as [ | [key versions] rest IH ]; [ reflexivity | ].
  simpl. destruct (String.eqb key k); simpl; [ reflexivity | now rewrite IH ].
Qed.

Lemma pushAt_other (k v key : string) (versions : list string) (c : Catalog) :
  key <> k -> In (key, versions) (pushAt k v c) <-> In (key, versions) c.
Proof.
  intro Hne.
  induction c as [ | [key' versions'] rest IH ]; [ reflexivity | ].
  simpl. destruct (String.eqb_spec key' k) as [-> | Hk]; simpl.
  - split; (intros [H | H]; [ inversion H; subst; contradiction | right; exact H ]).
  - rewrite IH. reflexivity.
Qed.

Lemma pushAt_same (k v : string) (versions' : list string) (c : Catalog) :
  NoDup (map fst c) -> In (k, versions') (pushAt k v c) ->
  exists versions, In (k, versions) c /\ versions' = versions ++ [v].
Proof.
  induction c as [ | [key versions] rest IH ]; intros Hnd Hin; [ destruct Hin | ].
  simpl in Hnd. inversion Hnd as [ | ? ? Hfresh Hrest ]; subst.
  simpl in Hin. destruct (String.eqb_spec key k) as [-> | Hk].
  - destruct Hin as [H | H].
    + inversion H; subst. exists versions. split; [ left; reflexivity | reflexivity ].
    + exfalso. apply Hfresh. apply (in_map fst) in H. exact H.
  - destruct Hin as [H | H]; [ inversion H; subst; contradiction | ].
    destruct (IH Hrest H) as [vs [Hvs ->]].
    exists vs. split; [ right; exact Hvs | reflexivity ].
Qed.

Lemma pushAt_fresh (k v : string) (versions : list string) (c : Catalog) :
  ~ In k (map fst c) -> pushAt k v (c ++ [(k, versions)]) = c ++ [(k, versions ++ [v])].
Proof.
  induction c as [ | [key versions'] rest IH ]; intro Hfresh; simpl.
  - rewrite String.eqb_refl. reflexivity.
  - destruct (String.eqb_spec key k) as [-> | Hk].
    + exfalso. apply Hfresh. left. reflexivity.
    + rewrite IH; [ reflexivity | ]. intro H. apply Hfresh. right. exact H.
Qed.

Lemma versionsInserted_snoc (key : string) (inserted : list Resource) (d : Resource) :
  versionsInserted key (inserted ++ [d])
  = versionsInserted key inserted
    ++ (if sameType key (type d) then [apiVersion d] else []).
Proof.
  unfold versionsInserted. rewrite filter_app, map_app. simpl.
  destruct (sameType key (type d)); reflexivity.
Qed.

Lemma injective_on_NoDup {A B : Type} (f : A -> B) (l : list A) (x y : A) :
  NoDup (map f l) -> In x l -> In y l -> f x = f y -> x = y.
Proof.
  induction l as [ | a rest IH ]; intros Hnd Hx Hy Hf; [ destruct Hx | ].
  simpl in Hnd. inversion Hnd as [ | ? ? Hfresh Hrest ]; subst.
  destruct Hx as [-> | Hx], Hy as [-> | Hy].
  - reflexivity.
  - exfalso. apply Hfresh. rewrite Hf. apply in_map. exact Hy.
  - exfalso. apply Hfresh. rewrite <- Hf. apply in_map. exact Hx.
  - apply IH; assumption.
Qed.

Lemma Filed_start : Filed [] [].
Proof.
  split; simpl.
  - constructor.
  - intros ? ? [].
  - intros ? [].
Qed.

Lemma Filed_found (c : Catalog) (inserted : list Resource) (d : Resource) (k : string) :
  Filed c inserted -> In k (map fst c) -> sameType k (type d) = true ->
  Filed (pushAt k (apiVersion d) c) (inserted ++ [d]).
Proof.
  intros [Hnd Hvs Hts] Hk Hsame. split.
  - rewrite pushAt_keys. exact Hnd.
  - intros key versions Hin. rewrite versionsInserted_snoc.
    destruct (String.eqb_spec key k) as [-> | Hne].
    + apply pushAt_same in Hin; [ | exact (NoDup_map_inv _ _ Hnd) ].
      destruct Hin as [vs [Hin ->]]. rewrite Hsame, (Hvs _ _ Hin). reflexivity.
    + apply pushAt_other in Hin; [ | exact Hne ].
      destruct (sameType key (type d)) eqn:Hkey.
      * exfalso. apply Hne.
        apply (injective_on_NoDup toLowerCase (map fst c)); try assumption.
        -- apply (in_map fst) in Hin. exact Hin.
        -- rewrite sameType_sym in Hsame.
           apply String.eqb_eq. exact (sameType_trans _ _ _ Hkey Hsame).
      * rewrite app_nil_r. exact (Hvs _ _ Hin).
  - intros d' Hin. rewrite pushAt_keys. apply in_app_or in Hin as [Hin | [<- | []]].
    + exact (Hts d' Hin).
    + exists k. split; assumption.
Qed.

Lemma nothing_inserted (c : Catalog) (inserted : list Resource) (t : string) :
  (forall d, In d inserted ->
             exists key, In key (map fst c) /\ sameType key (type d) = true) ->
  (forall key, In key (map fst c) -> sameType key t = false) ->
  versionsInserted t inserted = [].
Proof.
  intros Hts Hnone. unfold versionsInserted.
  induction inserted as [ | d' rest IH ]; [ reflexivity | ].
  simpl. destruct (sameType t (type d')) eqn:Hsame.
  - exfalso. destruct (Hts d' (or_introl eq_refl)) as [key [Hkey Hkd']].
    rewrite sameType_sym in Hsame.
    pose proof (sameType_trans _ _ _ Hkd' Hsame) as Hkt.
    rewrite (Hnone key Hkey) in Hkt. discriminate.
  - apply IH. intros d'' Hin. apply Hts. right. exact Hin.
Qed.

Lemma Filed_new (c : Catalog) (inserted : list Resource) (d : Resource) :
  Filed c inserted ->
  (forall key, In key (map fst c) -> sameType key (type d) = false) ->
  Filed (pushAt (type d) (apiVersion d) (c ++ [(type d, [])])) (inserted ++ [d]).
Proof.
  intros [Hnd Hvs Hts] Hnone.
  assert (~ In (type d) (map fst c)) as Hfresh.
  { intro H. apply Hnone in H. rewrite sameType_refl in H. discriminate. }
  rewrite (pushAt_fresh _ _ _ _ Hfresh). simpl app. split.
  - rewrite !map_app. simpl. apply NoDup_app; [ exact Hnd | repeat constructor; intros [] | ].
    intros lowered Hin [<- | []].
    apply in_map_iff in Hin as [key [Hlow Hkey]].
    apply Hnone in Hkey. unfold sameType in Hkey. rewrite Hlow, String.eqb_refl in Hkey.
    discriminate.
  - intros key versions Hin. rewrite versionsInserted_snoc.
    apply in_app_or in Hin as [Hin | [Heq | []]].
    + rewrite (Hnone key), app_nil_r; [ exact (Hvs _ _ Hin) | ].
      apply (in_map fst) in Hin. exact Hin.
    + inversion Heq; subst. rewrite sameType_refl.
      rewrite (nothing_inserted c inserted (type d) Hts Hnone). reflexivity.
  - intros d' Hin. rewrite map_app. apply in_app_or in Hin as [Hin | [<- | []]].
    + destruct (Hts d' Hin) as [key [Hkey Hsame]].
      exists key. split; [ apply in_or_app; left; exact Hkey | exact Hsame ].
    + exists (type d). split; [ apply in_or_app; right; left; reflexivity | apply sameType_refl ].
Qed.

Lemma addResource_Filed (c : Catalog) (inserted : list Resource) (d : Resource) :
  Filed c inserted -> type d <> "__proto__" ->
  Filed (addResource c d) (inserted ++ [d]).
Proof.
  intros HF Hproto. unfold addResource.
  destruct (find _ (map fst c)) as [k | ] eqn:Hfind.
  - apply find_some in Hfind as [Hk Hsame]. rewrite find_predicate in Hsame.
    apply Filed_found; assumption.
  - apply String.eqb_neq in Hproto. rewrite Hproto.
    apply Filed_new; [ exact HF | ].
    intros key Hkey. rewrite <- find_predicate.
    exact (find_none _ _ Hfind key Hkey).
Qed.

Lemma addResources_snoc (c : Catalog) (inserted : list Resource) (d : Resource) :
  addResources c (inserted ++ [d]) = addResource (addResources c inserted) d.
Proof. unfold addResources. rewrite fold_left_app. reflexivity. Qed.

Lemma addResources_Filed (inserted : list Resource) :
  Forall (fun d => type d <> "__proto__") inserted ->
  Filed (addResources [] inserted) inserted.
Proof.
  induction inserted as [ | d rest IH ] using rev_ind; intro Hproto.
  - exact Filed_start.
  - apply Forall_app in Hproto as [Hrest Hd]. inversion Hd; subst.
    rewrite addResources_snoc. apply addResource_Filed; [ apply IH; exact Hrest | assumption ].
Qed.

(** C4: two insertions whose types differ at most in case make one key,
    spelled as in the first insertion, with both versions under it. *)
Theorem first_casing_is_the_key (type1 type2 v1 v2 : string) :
  sameType type1 type2 = true -> type1 <> "__proto__" ->
  addResources [] [ {| apiVersion := v1; type := type1 |};
                    {| apiVersion := v2; type := type2 |} ]
  = [ (type1, [v1; v2]) ].
Proof.
  intros Hsame Hproto. apply String.eqb_neq in Hproto.
  unfold addResources, addResource. simpl.
  rewrite Hproto. simpl. rewrite String.eqb_refl. simpl.
  rewrite find_predicate, Hsame. simpl. rewrite String.eqb_refl. reflexivity.
Qed.

Lemma first_casing_is_the_key_witness :
  sameType "Foo/Bar" "foo/bar" = true /\ "Foo/Bar" <> "__proto__"
  /\ addResources [] [ {| apiVersion := "2020-01-01"; type := "Foo/Bar" |};
                       {| apiVersion := "2021-01-01"; type := "foo/bar" |} ]
     = [ ("Foo/Bar", ["2020-01-01"; "2021-01-01"]) ].
Proof.
  split; [ reflexivity | split; [ discriminate | ] ].
  apply (first_casing_is_the_key "Foo/Bar" "foo/bar" "2020-01-01" "2021-01-01");
    [ reflexivity | discriminate ].
Defined.

(** C6, as the program has it: under each key of the table are the API
    versions of all inserted descriptors of that type, in insertion order,
    one element per insertion.  Equal versions are kept, not collapsed. *)
Theorem versions_kept_per_insertion (inserted : list Resource) :
  Forall (fun d => type d <> "__proto__") inserted ->
  forall key versions,
    In (key, versions) (addResources [] inserted) ->
    versions = versionsInserted key inserted.
Proof.
  intros Hproto key versions Hin.
  exact (versions_filed _ _ (addResources_Filed inserted Hproto) key versions Hin).
Qed.

(** The keys of the table never differ in case only. *)
Theorem keys_differ_beyond_case (inserted : list Resource) :
  Forall (fun d => type d <> "__proto__") inserted ->
  NoDup (map toLowerCase (map fst (addResources [] inserted))).
Proof.
  intro Hproto. exact (keys_apart _ _ (addResources_Filed inserted Hproto)).
Qed.

Lemma versions_kept_per_insertion_witness :
  Forall (fun d => type d <> "__proto__") Examples.widgetInsertions
  /\ In ("Contoso.Widgets/widgets", ["2020-01-01"; "2020-01-01"; "2021-01-01"])
        (addResources [] Examples.widgetInsertions)
  /\ ["2020-01-01"; "2020-01-01"; "2021-01-01"]
     = versionsInserted "Contoso.Widgets/widgets" Examples.widgetInsertions.
Proof.
  assert (Forall (fun d => type d <> "__proto__") Examples.widgetInsertions) as Hproto.
  { repeat constructor; discriminate. }
  assert (In ("Contoso.Widgets/widgets", ["2020-01-01"; "2020-01-01"; "2021-01-01"])
             (addResources [] Examples.widgetInsertions)) as Hin.
  { left. reflexivity. }
  split; [ exact Hproto | split; [ exact Hin | ] ].
  exact (versions_kept_per_insertion Examples.widgetInsertions Hproto _ _ Hin).
Defined.

(** C6 as stated fails on the table the listing prints for the example
    store: the version [2020-01-01] is declared by both schema files of one
    resource type, and is listed twice under it. *)
Lemma versions_repeat_counterexample :
  exists catalog versions,
    listResources (store := Examples.store) = Ok catalog
    /\ versionsOf "Contoso.Widgets/widgets" catalog = Some versions
    /\ ~ NoDup versions.
Proof.
  exists [ ("Contoso.Widgets/widgets", ["2020-01-01"; "2020-01-01"; "2021-01-01"]) ].
  exists ["2020-01-01"; "2020-01-01"; "2021-01-01"].
  split; [ vm_compute; reflexivity | split; [ reflexivity | ] ].
  intro Hnd. inversion Hnd as [ | ? ? Hfresh _ ]; subst.
  apply Hfresh. left. reflexivity.
Qed.

Section Listing.
Context {store : SchemaStore}.

(** The table that the listing builds from references that all resolve is
    the table of their descriptors, inserted in order. *)
Lemma catalogRefs_inserts (refs : list string) (resolved : list (list Resource)) :
  Forall2 (fun schemaRef resources => getResourceInfo schemaRef = Ok resources)
          refs resolved ->
  forall allResources,
    catalogRefs allResources refs
    = Ok (addResources allResources (List.concat resolved)).
Proof.
  induction 1 as [ | schemaRef resources refs resolved Hinfo _ IH ]; intro allResources.
  - reflexivity.
  - simpl catalogRefs. rewrite Hinfo. cbn [bind]. rewrite IH.
    simpl List.concat. unfold addResources. rewrite fold_left_app. reflexivity.
Qed.

(** A reference that does not resolve ends the listing with its error: no
    table is returned. *)
Theorem listing_stops_at_first_failure (before after : list string) (failing : string)
  (resolved : list (list Resource)) (error : Exn) (allResources : Catalog) :
  Forall2 (fun schemaRef resources => getResourceInfo schemaRef = Ok resources)
          before resolved ->
  getResourceInfo failing = Throw error ->
  catalogRefs allResources (before ++ failing :: after) = Throw error.
Proof.
  intros Hbefore Hfailing. revert allResources.
  induction Hbefore as [ | schemaRef resources refs resolved Hinfo _ IH ]; intro allResources.
  - simpl. rewrite Hfailing. reflexivity.
  - simpl. rewrite Hinfo. cbn [bind]. apply IH.
Qed.

End Listing.

Lemma listing_stops_at_first_failure_witness :
  Forall2 (fun schemaRef resources =>
             getResourceInfo (store := Examples.store) schemaRef = Ok resources)
          [Examples.widgetsRef2020]
          [[ {| apiVersion := "2020-01-01"; type := "Contoso.Widgets/widgets" |} ]]
  /\ getResourceInfo (store := Examples.store) Examples.gadgetsRef
     = Throw (malformedSchema Examples.gadgetsRef)
  /\ catalogRefs (store := Examples.store) []
       ([Examples.widgetsRef2020] ++ Examples.gadgetsRef :: [Examples.widgetsRef2021])
     = Throw (malformedSchema Examples.gadgetsRef).
Proof.
  assert (Forall2 (fun schemaRef resources =>
                     getResourceInfo (store := Examples.store) schemaRef = Ok resources)
                  [Examples.widgetsRef2020]
                  [[ {| apiVersion := "2020-01-01"; type := "Contoso.Widgets/widgets" |} ]])
    as Hbefore.
  { repeat constructor. }
  split; [ exact Hbefore | split; [ reflexivity | ] ].
  exact (listing_stops_at_first_failure (store := Examples.store)
           [Examples.widgetsRef2020] [Examples.widgetsRef2021] Examples.gadgetsRef
           _ (malformedSchema Examples.gadgetsRef) [] Hbefore eq_refl).
Defined.

Lemma keys_differ_beyond_case_witness :
  Forall (fun d => type d <> "__proto__") Examples.widgetInsertions
  /\ NoDup (map toLowerCase (map fst (addResources [] Examples.widgetInsertions))).
Proof.
  assert (Forall (fun d => type d <> "__proto__") Examples.widgetInsertions) as Hproto.
  { repeat constructor; discriminate. }
  split; [ exact Hproto | ].
  exact (keys_differ_beyond_case Examples.widgetInsertions Hproto).
Defined.

End CatalogFacts.

(** ** The schema loader *)

Module LoaderFacts.
Import Js Json JsNotations ListResources Unfolded Stated.

Section Loader.
Context {store : SchemaStore}.

(** Reading a name that is not an inherited member gives the own property,
    or [undefined]. *)
Lemma getProp_field (v : JValue) (key : string) :
  inherits v key = false ->
  v <> JNull -> getProp (Some v) key = Ok (field (Some v) key).
Proof.
  intros Hplain Hnull. unfold field.
  destruct v; cbn [getProp]; try contradiction; unfold found, notOwned; rewrite Hplain;
    try reflexivity.
  - destruct (String.eqb key "length"); [ reflexivity | ].
    destruct (charAt key 0 s); reflexivity.
  - destruct (String.eqb key "length"); [ reflexivity | ].
    destruct (elementAt key 0 elems); reflexivity.
  - destruct (ownProperty key fields); reflexivity.
Qed.

(** The four names that [getResourceInfo] reads are no inherited members. *)
Lemma declared_names_are_own (v : JValue) :
  inherits v "properties" = false /\ inherits v "type" = false
  /\ inherits v "enum" = false /\ inherits v "apiVersion" = false.
Proof. destruct v; repeat split; reflexivity. Qed.

Lemma truthy_not_null (v : JValue) : truthy (Some v) = true -> v <> JNull.
Proof. intros H ->. discriminate. Qed.

(** Nothing is declared under a value that is not truthy. *)
Lemma field_of_falsy (o : option JValue) (key : string) :
  truthy o = false -> String.eqb key "length" = false -> field o key = None.
Proof.
  intros Hfalse Hkey. unfold field.
  destruct o as [ [ | b | n | s | elems | fields ] | ]; simpl in *;
    try reflexivity; try discriminate; unfold found, notOwned.
  - destruct (inherits (JBool b) key); reflexivity.
  - destruct (inherits (JNumber n) key); reflexivity.
  - rewrite Hkey. apply negb_false_iff, String.eqb_eq in Hfalse. subst.
    cbn [charAt]. destruct (inherits (JString EmptyString) key); reflexivity.
Qed.

Lemma truthy_Some (o : option JValue) :
  truthy o = true -> exists v, o = Some v.
Proof. destruct o as [v | ]; [ eauto | discriminate ]. Qed.

(** The test of [getResourceInfo] on a node that is there. *)
Lemma expectedProperties_decides (schemaRef : string) (node : JValue) :
  node <> JNull ->
  expectedProperties schemaRef (Some node)
  = if declaresAllFour node
    then match typeEnumeration node, apiVersionEnumeration node with
         | Some types, Some versions => Ok (types, versions)
         | _, _ => Throw (malformedSchema schemaRef)
         end
    else Throw (malformedSchema schemaRef).
Proof.
  intro Hnode.
  unfold expectedProperties, declaresAllFour, typeEnumeration, apiVersionEnumeration,
    typeDeclaration, apiVersionDeclaration.
  rewrite (getProp_field node "properties" (proj1 (declared_names_are_own node)) Hnode). cbn [bind].
  destruct (truthy (field (Some node) "properties")) eqn:Hprops.
  2:{ rewrite (field_of_falsy _ "type" Hprops eq_refl). simpl truthy. cbn [andb].
      unfold expected. destruct (field (Some node) "properties"); [ rewrite Hprops | ]; reflexivity. }
  destruct (truthy_Some _ Hprops) as [properties Eprops]. rewrite Eprops in *.
  unfold expected at 1. rewrite Hprops. cbn [bind].
  rewrite (getProp_field properties "type" (proj1 (proj2 (declared_names_are_own properties))) (truthy_not_null _ Hprops)). cbn [bind].
  destruct (truthy (field (Some properties) "type")) eqn:Htype.
  2:{ cbn [bind]. unfold expected.
      destruct (field (Some properties) "type"); [ rewrite Htype | ]; reflexivity. }
  destruct (truthy_Some _ Htype) as [typeSchema Etype]. rewrite Etype in *.
  unfold expected at 1. rewrite Htype. cbn [bind].
  rewrite (getProp_field typeSchema "enum" (proj1 (proj2 (proj2 (declared_names_are_own typeSchema)))) (truthy_not_null _ Htype)). cbn [bind].
  destruct (truthy (field (Some typeSchema) "enum")) eqn:Htenum.
  2:{ cbn [bind]. unfold expected.
      destruct (field (Some typeSchema) "enum"); [ rewrite Htenum | ]; reflexivity. }
  destruct (truthy_Some _ Htenum) as [types Etypes]. rewrite Etypes in *.
  unfold expected at 1. rewrite Htenum. cbn [bind].
  rewrite (getProp_field properties "apiVersion" (proj2 (proj2 (proj2 (declared_names_are_own properties)))) (truthy_not_null _ Hprops)). cbn [bind].
  destruct (truthy (field (Some properties) "apiVersion")) eqn:Hapi.
  2:{ cbn [bind]. unfold expected.
      destruct (field (Some properties) "apiVersion"); [ rewrite Hapi | ]; reflexivity. }
  destruct (truthy_Some _ Hapi) as [apiSchema Eapi]. rewrite Eapi in *.
  unfold expected at 1. rewrite Hapi. cbn [bind].
  rewrite (getProp_field apiSchema "enum" (proj1 (proj2 (proj2 (declared_names_are_own apiSchema)))) (truthy_not_null _ Hapi)). cbn [bind].
  destruct (truthy (field (Some apiSchema) "enum")) eqn:Haenum.
  2:{ cbn [bind]. unfold expected.
      destruct (field (Some apiSchema) "enum"); [ rewrite Haenum | ]; reflexivity. }
  destruct (truthy_Some _ Haenum) as [versions Eversions]. rewrite Eversions in *.
  unfold expected. rewrite Haenum. reflexivity.
Qed.

(** C7, as the program has it: for a reference whose fragment leads to a
    node, resolution fails with the malformed-schema error exactly when the
    node lacks at least one of the four declarations; when it has all four,
    the two enumerations are returned. *)
Theorem malformed_iff_one_is_missing (schemaRef : string) (node : JValue) :
  targetNode schemaRef = Ok (Some node) -> node <> JNull ->
  (resolveEnumerations schemaRef = Throw (malformedSchema schemaRef)
   <-> declaresAllFour node = false)
  /\ (declaresAllFour node = true ->
      exists types versions,
        typeEnumeration node = Some types
        /\ apiVersionEnumeration node = Some versions
        /\ resolveEnumerations schemaRef = Ok (types, versions)).
Proof.
  intros Htarget Hnode.
  unfold resolveEnumerations. rewrite Htarget. cbn [bind].
  rewrite (expectedProperties_decides schemaRef node Hnode).
  destruct (declaresAllFour node) eqn:Hall.
  - unfold declaresAllFour in Hall.
    apply andb_true_iff in Hall as [Hall Haenum].
    apply andb_true_iff in Hall as [Hall _].
    apply andb_true_iff in Hall as [_ Htenum].
    destruct (truthy_Some _ Htenum) as [types ->].
    destruct (truthy_Some _ Haenum) as [versions ->].
    split.
    + split; discriminate.
    + intros _. exists types, versions. repeat split.
  - split.
    + split; reflexivity.
    + discriminate.
Qed.

Lemma declaredStrings_of_strings (values : list string) :
  declaredStrings (map JString values) = Ok values.
Proof.
  induction values as [ | s rest IH ]; [ reflexivity | ].
  simpl. rewrite IH. reflexivity.
Qed.

Lemma crossProduct_rows (types : list JValue) (apiVersions : JValue) :
  crossProduct (JArray types) apiVersions = rowsOf apiVersions types.
Proof.
  unfold crossProduct.
  induction types as [ | t rest IH ]; [ reflexivity | ].
  simpl rowsOf. rewrite <- IH. reflexivity.
Qed.

Lemma crossProduct_of_strings (types versions : list string) :
  crossProduct (JArray (map JString types)) (JArray (map JString versions))
  = Ok (pairsOf types versions).
Proof.
  rewrite crossProduct_rows. unfold pairsOf.
  induction types as [ | t rest IH ]; [ reflexivity | ].
  simpl map. simpl rowsOf. rewrite IH.
  unfold rowOf. cbn [declaredString bind].
  rewrite declaredStrings_of_strings. reflexivity.
Qed.

Lemma pairsOf_all_pairs (types versions : list string) (t v : string) :
  In {| apiVersion := v; type := t |} (pairsOf types versions)
  <-> In t types /\ In v versions.
Proof.
  unfold pairsOf. rewrite in_flat_map. split.
  - intros [t' [Ht Hin]]. apply in_map_iff in Hin as [v' [Heq Hv]].
    inversion Heq; subst. split; assumption.
  - intros [Ht Hv]. exists t. split; [ exact Ht | ].
    apply in_map_iff. exists v. split; [ reflexivity | exact Hv ].
Qed.

(** C8: the descriptors of a reference are the pairs of its two
    enumerations, every type with every API version, and nothing else. *)
Theorem descriptors_are_all_pairs (schemaRef : string) (types versions : list string) :
  resolveEnumerations schemaRef
  = Ok (JArray (map JString types), JArray (map JString versions)) ->
  getResourceInfo schemaRef = Ok (pairsOf types versions)
  /\ (forall t v, In {| apiVersion := v; type := t |} (pairsOf types versions)
                  <-> In t types /\ In v versions).
Proof.
  intro Henums. split.
  - unfold getResourceInfo. rewrite Henums. cbn [bind fst snd].
    apply crossProduct_of_strings.
  - intros t v. apply pairsOf_all_pairs.
Qed.

End Loader.

Lemma malformed_iff_one_is_missing_witness :
  targetNode (store := Examples.store) Examples.widgetsRef2020 = Ok (Some Examples.widgets2020)
  /\ Examples.widgets2020 <> JNull
  /\ (resolveEnumerations (store := Examples.store) Examples.widgetsRef2020
       = Throw (malformedSchema Examples.widgetsRef2020)
       <-> declaresAllFour Examples.widgets2020 = false)
  /\ (declaresAllFour Examples.widgets2020 = true ->
      exists types versions,
        typeEnumeration Examples.widgets2020 = Some types
        /\ apiVersionEnumeration Examples.widgets2020 = Some versions
        /\ resolveEnumerations (store := Examples.store) Examples.widgetsRef2020
           = Ok (types, versions)).
Proof.
  split; [ reflexivity | split; [ discriminate | ] ].
  apply (malformed_iff_one_is_missing (store := Examples.store)
           Examples.widgetsRef2020 Examples.widgets2020);
    [ reflexivity | discriminate ].
Defined.

(** C7 as stated fails on a definition that declares the [type]
    enumeration and no [apiVersion]: it does not lack all four, and
    resolution fails with the malformed-schema error all the same. *)
Lemma one_declaration_counterexample :
  targetNode (store := Examples.store) Examples.gadgetsRef = Ok (Some Examples.gadgets2020)
  /\ truthy (typeEnumeration Examples.gadgets2020) = true
  /\ ~ (resolveEnumerations (store := Examples.store) Examples.gadgetsRef
         = Throw (malformedSchema Examples.gadgetsRef)
         <-> lacksAllFour Examples.gadgets2020 = true).
Proof.
  split; [ reflexivity | split; [ reflexivity | ] ].
  intros [Hlacks _].
  assert (lacksAllFour Examples.gadgets2020 = true) as H by (apply Hlacks; reflexivity).
  discriminate H.
Qed.

Lemma descriptors_are_all_pairs_witness :
  resolveEnumerations (store := Examples.store) Examples.sprocketsRef
  = Ok (JArray (map JString ["Contoso.Widgets/sprockets"; "Contoso.Widgets/cogs"]),
        JArray (map JString ["2021-01-01"; "2021-06-01"]))
  /\ getResourceInfo (store := Examples.store) Examples.sprocketsRef
     = Ok [ {| apiVersion := "2021-01-01"; type := "Contoso.Widgets/sprockets" |};
            {| apiVersion := "2021-06-01"; type := "Contoso.Widgets/sprockets" |};
            {| apiVersion := "2021-01-01"; type := "Contoso.Widgets/cogs" |};
            {| apiVersion := "2021-06-01"; type := "Contoso.Widgets/cogs" |} ].
Proof.
  split; [ reflexivity | ].
  exact (proj1 (descriptors_are_all_pairs (store := Examples.store) Examples.sprocketsRef
                  ["Contoso.Widgets/sprockets"; "Contoso.Widgets/cogs"]
                  ["2021-01-01"; "2021-06-01"] eq_refl)).
Defined.

End LoaderFacts.

(** ** The candidate references *)

Module CandidateFacts.
Import Js Json JsNotations ListResources Stated.

Lemma split_not_nil (sep : ascii) (s : string) : split sep s <> [].
Proof.
  destruct s as [ | c rest ]; simpl; [ discriminate | ].
  destruct (Ascii.eqb c sep); [ discriminate | ].
  destruct (split sep rest); discriminate.
Qed.

Lemma documentUri_cons (c : ascii) (rest : string) :
  documentUri (String c rest)
  = if Ascii.eqb c "#" then EmptyString else String c (documentUri rest).
Proof.
  unfold documentUri. simpl.
  destruct (Ascii.eqb c "#"); [ reflexivity | ].
  pose proof (split_not_nil "#" rest) as Hne.
  destruct (split "#" rest); [ contradiction | reflexivity ].
Qed.

Lemma lowerChar_hash (c : ascii) :
  Ascii.eqb (lowerChar c) "#" = Ascii.eqb c "#".
Proof.
  destruct c as [[] [] [] [] [] [] [] []]; reflexivity.
Qed.

Lemma occurs_lower (s : string) : occurs "#" (toLowerCase s) = occurs "#" s.
Proof.
  induction s as [ | c rest IH ]; [ reflexivity | ].
  simpl. rewrite lowerChar_hash, IH. reflexivity.
Qed.

Lemma occurs_append (c : ascii) (a b : string) :
  occurs c (String.append a b) = orb (occurs c a) (occurs c b).
Proof.
  induction a as [ | x rest IH ]; [ reflexivity | ].
  simpl. rewrite IH. apply orb_assoc.
Qed.

Lemma startsWith_empty (s : string) : startsWith s EmptyString = true.
Proof. destruct s; reflexivity. Qed.

(** A prefix without ['#'] is a prefix of the reference exactly when it is
    one of the reference's document URI. *)
Lemma startsWith_documentUri (s p : string) :
  occurs "#" p = false ->
  startsWith (toLowerCase s) p = startsWith (toLowerCase (documentUri s)) p.
Proof.
  revert p. induction s as [ | c rest IH ]; intros [ | a p' ] Hp; try reflexivity.
  { rewrite !startsWith_empty. reflexivity. }
  simpl in Hp. apply orb_false_iff in Hp as [Ha Hp'].
  rewrite documentUri_cons.
  destruct (Ascii.eqb_spec c "#") as [-> | Hc].
  - simpl. change (lowerChar "#") with "#"%char. rewrite Ha. reflexivity.
  - simpl. rewrite (IH p' Hp'). reflexivity.
Qed.

Section Candidates.
Context {store : SchemaStore}.

Lemma underSchemasBase_documentUri (schemaRef : string) :
  occurs "#" schemasBaseUri = false ->
  underSchemasBase schemaRef = underSchemasBase (documentUri schemaRef).
Proof.
  intro Hbase. unfold underSchemasBase. apply startsWith_documentUri.
  rewrite occurs_append, occurs_lower, Hbase. reflexivity.
Qed.


Lemma dropRoot_all (roots : list string) (allRefs : list string) (schemaRef : string) :
  In schemaRef (fold_left dropRoot roots allRefs)
  <-> In schemaRef allRefs
      /\ forall root, In root roots -> lowerCaseCompare (documentUri schemaRef) root <> 0%Z.
Proof.
  revert allRefs. induction roots as [ | root rest IH ]; intro allRefs; simpl.
  - split; [ intro H; split; [ exact H | intros ? [] ] | intros [H _]; exact H ].
  - rewrite IH. unfold dropRoot. rewrite filter_In, negb_true_iff, Z.eqb_neq.
    split.
    + intros [[Hin Hroot] Hrest]. split; [ exact Hin | ].
      intros r [<- | Hr]; [ exact Hroot | exact (Hrest r Hr) ].
    + intros [Hin Hall]. split; [ split; [ exact Hin | apply Hall; left; reflexivity ] | ].
      intros r Hr. apply Hall. right. exact Hr.
Qed.

End Candidates.

Lemma existsb_eqb_In (x : string) (seen : list string) :
  existsb (String.eqb x) seen = true <-> In x seen.
Proof.
  rewrite existsb_exists. split.
  - intros [y [Hy Heq]]. apply String.eqb_eq in Heq. subst. exact Hy.
  - intro H. exists x. split; [ exact H | apply String.eqb_refl ].
Qed.

Lemma uniqueInto_In (xs seen : list string) (x : string) :
  In x (uniqueInto seen xs) <-> In x xs /\ ~ In x seen.
Proof.
  revert seen. induction xs as [ | y rest IH ]; intro seen; simpl.
  - tauto.
  - destruct (existsb (String.eqb y) seen) eqn:Hseen.
    + apply existsb_eqb_In in Hseen. rewrite IH. split.
      * intros [Hin Hnot]. tauto.
      * intros [[-> | Hin] Hnot]; [ contradiction | tauto ].
    + assert (~ In y seen) as Hy.
      { intro H. apply existsb_eqb_In in H. congruence. }
      simpl. rewrite IH. simpl. split.
      * intros [-> | [Hin Hnot]]; [ tauto | tauto ].
      * intros [[-> | Hin] Hnot]; [ tauto | ].
        destruct (String.eqb_spec y x) as [-> | Hne]; [ tauto | ].
        right. split; [ exact Hin | ]. intros [H | H]; [ contradiction | contradiction ].
Qed.


Lemma spreadSet_In (xs : list string) (x : string) : In x (spreadSet xs) <-> In x xs.
Proof. unfold spreadSet. rewrite uniqueInto_In. simpl. tauto. Qed.


(** Two spellings of one reference are two members; a repeated spelling is
    one. *)
Example spreadSet_is_by_spelling :
  spreadSet [Examples.widgetsRef2020; toLowerCase Examples.widgetsRef2020;
             Examples.widgetsRef2020]
  = [Examples.widgetsRef2020; toLowerCase Examples.widgetsRef2020].
Proof. reflexivity. Qed.

Section CandidateSet.
Context {store : SchemaStore}.


End CandidateSet.


End CandidateFacts.

(** ** The full-batch orchestrator *)

Module BatchFacts.
Import Js Generate StepNotations GenerateAll StatedBatch.

(** Texts are compared with their appends nested to the right. *)
Lemma append_assoc (a b c : string) :
  String.append (String.append a b) c = String.append a (String.append b c).
Proof.
  induction a as [ | ch rest IH ]; [ reflexivity | ].
  simpl. rewrite IH. reflexivity.
Qed.

Ltac same_text :=
  repeat (cbn [String.append fold_right LogText.written]; rewrite ?append_assoc);
  reflexivity.

(** The three templates of the summary log, with the line feed that
    [logOut] adds, read as the log is to read. *)
Lemma basePathFailedBlock_written (basePath : string) (error : Exn) :
  String.append (basePathFailedBlock basePath error) nl
  = LogText.basePathFailure basePath (errorText error).
Proof.
  unfold basePathFailedBlock, LogText.basePathFailure, lines, nl, LogText.newline,
    indent16, fence.
  same_text.
Qed.

Lemma succeededBlock_written (basePath : string) :
  String.append (succeededBlock basePath) nl = LogText.entrySuccess basePath.
Proof.
  unfold succeededBlock, LogText.entrySuccess, lines, nl, LogText.newline, indent24.
  same_text.
Qed.

Lemma entryFailedBlock_written (autoGenConfig : AutoGenConfig) (error : Exn) :
  String.append (entryFailedBlock autoGenConfig error) nl
  = LogText.entryFailure (Generate.basePath autoGenConfig) (namespace autoGenConfig)
      (errorText error).
Proof.
  unfold entryFailedBlock, LogText.entryFailure, lines, nl, LogText.newline, indent24,
    fence.
  same_text.
Qed.

Section Batch.
Context {C : Type} {collaborators : Collaborators C}.

(** Runs the body of the inner loop down to the three calls it depends on. *)
Ltac run_entry :=
  unfold processEntry, generateEntry, tryCatch, andThen, ask, call, pushConfigs,
    pushPackage, logOut, emit, setLocals, ret.

Lemma processEntry_returns (localPath basePath : string) (autoGenConfig : AutoGenConfig)
  (s : State C (Locals C)) :
  snd (processEntry localPath basePath autoGenConfig s) = Ok tt.
Proof.
  run_entry.
  destruct (validateAndReturnReadmePath _ _ _) as [readme | e]; [ | reflexivity ].
  destruct (getPackageString _ _) as [name | e]; [ | reflexivity ].
  destruct (generateSchemas _ _ _) as [newConfigs | e]; reflexivity.
Qed.

Lemma processEntry_pushes (localPath basePath : string) (autoGenConfig : AutoGenConfig)
  (s : State C (Locals C)) :
  packages (locals (fst (processEntry localPath basePath autoGenConfig s)))
  = packages (locals s) ++ [recordOf localPath autoGenConfig (history s)].
Proof.
  unfold recordOf, generation. run_entry.
  destruct (validateAndReturnReadmePath _ _ _) as [readme | e]; [ | reflexivity ].
  destruct (getPackageString _ _) as [name | e]; [ | reflexivity ].
  destruct (generateSchemas _ _ _) as [newConfigs | e]; reflexivity.
Qed.

Lemma entryLoop_cons (localPath basePath : string) (autoGenConfig : AutoGenConfig)
  (others : list AutoGenConfig) (s : State C (Locals C)) :
  entryLoop localPath basePath (autoGenConfig :: others) s
  = entryLoop localPath basePath others
      (fst (processEntry localPath basePath autoGenConfig s)).
Proof.
  unfold entryLoop. simpl forEach. unfold andThen.
  pose proof (processEntry_returns localPath basePath autoGenConfig s) as Hret.
  destruct (processEntry localPath basePath autoGenConfig s) as [s' r].
  simpl in Hret. subst. reflexivity.
Qed.

Lemma processEntry_extends (localPath basePath : string) (autoGenConfig : AutoGenConfig)
  (s : State C (Locals C)) :
  exists events,
    history (fst (processEntry localPath basePath autoGenConfig s)) = history s ++ events.
Proof.
  run_entry.
  destruct (validateAndReturnReadmePath _ _ _) as [readme | e]; [ | eexists; reflexivity ].
  destruct (getPackageString _ _) as [name | e]; [ | eexists; reflexivity ].
  destruct (generateSchemas _ _ _) as [newConfigs | e]; simpl; rewrite <- app_assoc;
    eexists; reflexivity.
Qed.

Lemma entryLoop_keeps (localPath basePath : string) (entries : list AutoGenConfig)
  (s : State C (Locals C)) (ev : Event C) :
  In ev (history s) -> In ev (history (fst (entryLoop localPath basePath entries s))).
Proof.
  revert s. induction entries as [ | first others IH ]; intros s Hin; [ exact Hin | ].
  rewrite entryLoop_cons. apply IH.
  destruct (processEntry_extends localPath basePath first s) as [events ->].
  apply in_or_app. left. exact Hin.
Qed.

(** An entry whose readme and package identifier are found is handed to
    the generation routine. *)
Lemma processEntry_generates (localPath basePath : string) (autoGenConfig : AutoGenConfig)
  (s : State C (Locals C)) (readme name : string) :
  validateAndReturnReadmePath (history s) localPath (readmeFileOrBasePath autoGenConfig)
  = Ok readme ->
  getPackageString (history s) readme = Ok name ->
  In (GenerateSchemas readme autoGenConfig)
     (history (fst (processEntry localPath basePath autoGenConfig s))).
Proof.
  intros Hreadme Hname.
  run_entry.
  rewrite Hreadme, Hname.
  destruct (generateSchemas _ _ _) as [newConfigs | e]; simpl;
    rewrite <- app_assoc; apply in_or_app; right; left; reflexivity.
Qed.

(** C1: the inner loop returns, whatever the entries do; it appends one
    record per entry to [packages]; the record at position [i] is the one
    owed to the [i]-th entry, decided by the generation of that entry alone,
    after the entries before it were processed: [failed] under the entry's
    base path when it throws, [succeeded] under its package identifier when
    it does not.  No entry is passed over because an earlier one threw:
    each entry whose readme and package identifier are found is handed to
    the generation routine. *)
Theorem entry_loop_records_every_entry (localPath basePath : string)
  (entries : list AutoGenConfig) (s : State C (Locals C)) :
  snd (entryLoop localPath basePath entries s) = Ok tt
  /\ exists records,
       packages (locals (fst (entryLoop localPath basePath entries s)))
       = packages (locals s) ++ records
       /\ List.length records = List.length entries
       /\ forall i autoGenConfig,
            nth_error entries i = Some autoGenConfig ->
            let reached := fst (entryLoop localPath basePath (firstn i entries) s) in
            nth_error records i
            = Some (recordOf localPath autoGenConfig (history reached))
            /\ forall readme name,
                 validateAndReturnReadmePath (history reached) localPath
                   (readmeFileOrBasePath autoGenConfig) = Ok readme ->
                 getPackageString (history reached) readme = Ok name ->
                 In (GenerateSchemas readme autoGenConfig)
                    (history (fst (entryLoop localPath basePath entries s))).
Proof.
  revert s. induction entries as [ | first others IH ]; intro s.
  - split; [ reflexivity | ]. exists []. simpl. rewrite app_nil_r.
    split; [ reflexivity | split; [ reflexivity | ] ].
    intros [ | i ] ? H; discriminate H.
  - rewrite entryLoop_cons.
    destruct (IH (fst (processEntry localPath basePath first s)))
      as [Hret [records [Hpkgs [Hlen Hnth]]]].
    split; [ exact Hret | ].
    exists (recordOf localPath first (history s) :: records).
    split; [ | split ].
    + rewrite Hpkgs, processEntry_pushes, <- app_assoc. reflexivity.
    + simpl. rewrite Hlen. reflexivity.
    + intros [ | i ] autoGenConfig Hi; simpl in Hi.
      * inversion Hi; subst. simpl. split; [ reflexivity | ].
        intros readme name Hreadme Hname. apply entryLoop_keeps.
        exact (processEntry_generates _ _ _ _ _ _ Hreadme Hname).
      * simpl firstn. rewrite entryLoop_cons. simpl. apply Hnth. exact Hi.
Qed.

(** C3: a base path whose readme is not found is skipped.  The only thing
    done for it is one write to the summary log, of the failure block that
    names the base path and carries the text of the error that the lookup
    threw; [packages] and [schemaConfigs] stay as they were, so no package
    record is made, and no other collaborator is called.  The iteration ends
    normally, and the loop goes on with the next base path.  The thrown
    value is an Error object, as everywhere in this development. *)
Theorem unresolved_base_path_is_skipped (args : Args) (localPath basePath : string)
  (others : list string) (s : State C (Locals C)) (error : Exn) :
  validateAndReturnReadmePath (history s) localPath basePath = Throw error ->
  processBasePath args localPath basePath s
  = ({| history := history s
                   ++ [SummaryLog (LogText.basePathFailure basePath (errorText error))];
        locals := locals s |},
     Ok tt)
  /\ basePathLoop args localPath (basePath :: others) s
     = basePathLoop args localPath others
         {| history := history s
                       ++ [SummaryLog (LogText.basePathFailure basePath (errorText error))];
            locals := locals s |}.
Proof.
  intro Hreadme.
  assert (processBasePath args localPath basePath s
          = ({| history := history s
                           ++ [SummaryLog (LogText.basePathFailure basePath
                                             (errorText error))];
                locals := locals s |},
             Ok tt)) as Hstep.
  { unfold processBasePath, tryCatch, generateBasePath, andThen, ask.
    rewrite Hreadme. unfold logOut, emit. cbn [history locals].
    rewrite basePathFailedBlock_written. reflexivity. }
  split; [ exact Hstep | ].
  unfold basePathLoop. simpl forEach. unfold andThen. rewrite Hstep. reflexivity.
Qed.

Lemma processBasePath_returns (args : Args) (localPath basePath : string)
  (s : State C (Locals C)) :
  snd (processBasePath args localPath basePath s) = Ok tt.
Proof.
  unfold processBasePath, tryCatch.
  destruct (generateBasePath args localPath basePath s) as [s' [ [] | e ]]; reflexivity.
Qed.

End Batch.

Lemma unresolved_base_path_is_skipped_witness :
  validateAndReturnReadmePath (Collaborators := Examples.batch)
    (history (start (C := string))) "/specs" Examples.svcMissing
  = Throw (Error "Unable to find a readme for svcMissing/resource-manager")
  /\ processBasePath (collaborators := Examples.batch)
       Examples.noArgs "/specs" Examples.svcMissing start
     = ({| history := [SummaryLog Examples.svcMissingBlock];
           locals := {| schemaConfigs := []; packages := [] |} |},
        Ok tt)
  /\ basePathLoop (collaborators := Examples.batch)
       Examples.noArgs "/specs" [Examples.svcMissing; Examples.svcA] start
     = basePathLoop (collaborators := Examples.batch)
         Examples.noArgs "/specs" [Examples.svcA]
         {| history := [SummaryLog Examples.svcMissingBlock];
            locals := {| schemaConfigs := []; packages := [] |} |}.
Proof.
  split; [ reflexivity | ].
  exact (unresolved_base_path_is_skipped (collaborators := Examples.batch)
           Examples.noArgs "/specs" Examples.svcMissing [Examples.svcA] start
           (Error "Unable to find a readme for svcMissing/resource-manager") eq_refl).
Defined.

Lemma entry_loop_records_every_entry_witness :
  nth_error (Examples.entriesOf Examples.svcA) 2
  = Some (Examples.entry Examples.svcA "Microsoft.Third")
  /\ exists records,
       packages (locals (fst (entryLoop (collaborators := Examples.batch)
                                "/specs" Examples.svcA (Examples.entriesOf Examples.svcA)
                                start)))
       = packages (locals (start (C := string))) ++ records
       /\ List.length records = 3
       /\ nth_error records 2
          = Some {| path := ["schemas"];
                    packageName := String.append "pkg:" Examples.svcAReadme;
                    result := succeeded |}
       /\ In (GenerateSchemas Examples.svcAReadme (Examples.entry Examples.svcA "Microsoft.Third"))
             (history (fst (entryLoop (collaborators := Examples.batch)
                              "/specs" Examples.svcA (Examples.entriesOf Examples.svcA)
                              start))).
Proof.
  split; [ reflexivity | ].
  destruct (entry_loop_records_every_entry (collaborators := Examples.batch)
              "/specs" Examples.svcA (Examples.entriesOf Examples.svcA) start)
    as [_ [records [Hpackages [Hlength Hnth]]]].
  destruct (Hnth 2 (Examples.entry Examples.svcA "Microsoft.Third") eq_refl)
    as [Hrecord Hcalled].
  exists records. split; [ exact Hpackages | split; [ exact Hlength | split ] ].
  - exact Hrecord.
  - exact (Hcalled Examples.svcAReadme (String.append "pkg:" Examples.svcAReadme)
             eq_refl eq_refl).
Defined.

(** Three entries, the second of which throws: three records, in the order
    of the entries, the second [failed] under the base path of its entry,
    the others [succeeded] under their package identifier. *)
Example three_entries_second_throws :
  packages (locals (fst (entryLoop (collaborators := Examples.batch)
                           "/specs" Examples.svcA (Examples.entriesOf Examples.svcA) start)))
  = [ {| path := ["schemas"];
         packageName := String.append "pkg:" Examples.svcAReadme;
         result := succeeded |};
      {| path := ["schemas"]; packageName := Examples.svcA; result := failed |};
      {| path := ["schemas"];
         packageName := String.append "pkg:" Examples.svcAReadme;
         result := succeeded |} ].
Proof. reflexivity. Qed.

End BatchFacts.

(** ** The single-base-path generator *)

Module SingleFacts.
Import Js Generate StepNotations GenerateSingle.
Import Stated.

Section Single.
Context {C : Type} {collaborators : Collaborators C}.

Lemma processEntry_disabled (readme : string) (autoGenConfig : AutoGenConfig)
  (s : State C (list C)) :
  isDisabled autoGenConfig = true -> processEntry readme autoGenConfig s = (s, Ok tt).
Proof. intro H. unfold processEntry. rewrite H. reflexivity. Qed.

Lemma processEntry_enabled (readme : string) (autoGenConfig : AutoGenConfig)
  (s : State C (list C)) :
  isDisabled autoGenConfig = false ->
  processEntry readme autoGenConfig s
  = match generateSchemas (history s) readme autoGenConfig with
    | Ok localSchemaConfigs =>
        ({| history := history s ++ [GenerateSchemas readme autoGenConfig];
            locals := locals s ++ localSchemaConfigs |}, Ok tt)
    | Throw e =>
        ({| history := history s ++ [GenerateSchemas readme autoGenConfig];
            locals := locals s |}, Throw e)
    end.
Proof.
  intro H. unfold processEntry. rewrite H. unfold andThen, call, setLocals.
  destruct (generateSchemas (history s) readme autoGenConfig); reflexivity.
Qed.

Lemma entryLoop_step (readme : string) (first : AutoGenConfig)
  (others : list AutoGenConfig) (s : State C (list C)) :
  entryLoop readme (first :: others) s
  = match processEntry readme first s with
    | (s1, Ok _) => entryLoop readme others s1
    | (s1, Throw e) => (s1, Throw e)
    end.
Proof. reflexivity. Qed.

Lemma entryLoop_app (readme : string) (before after : list AutoGenConfig)
  (s : State C (list C)) :
  entryLoop readme (before ++ after) s
  = match entryLoop readme before s with
    | (s1, Ok _) => entryLoop readme after s1
    | (s1, Throw e) => (s1, Throw e)
    end.
Proof.
  revert s. induction before as [ | first others IH ]; intro s; [ reflexivity | ].
  simpl app. rewrite !entryLoop_step.
  destruct (processEntry readme first s) as [s' [ [] | e ]]; [ apply IH | reflexivity ].
Qed.

(** The calls the loop makes: the enabled entries, in order, up to the
    first one that throws. *)
Lemma entryLoop_calls (readme : string) (entries : list AutoGenConfig)
  (s : State C (list C)) :
  exists calls,
    history (fst (entryLoop readme entries s))
    = history s ++ map (GenerateSchemas readme) calls
    /\ Forall (fun autoGenConfig => isDisabled autoGenConfig = false) calls
    /\ (snd (entryLoop readme entries s) = Ok tt -> calls = filter enabled entries).
Proof.
  revert s. induction entries as [ | first others IH ]; intro s.
  - exists []. simpl. rewrite app_nil_r. repeat split; constructor.
  - rewrite entryLoop_step. unfold enabled. simpl filter.
    destruct (isDisabled first) eqn:Hdisabled; simpl negb; cbv iota.
    + rewrite (processEntry_disabled _ _ _ Hdisabled). exact (IH s).
    + rewrite (processEntry_enabled _ _ _ Hdisabled).
      destruct (generateSchemas (history s) readme first) as [configs | e].
      * match goal with
        | |- context [entryLoop readme others ?s1] => destruct (IH s1) as [calls [Hh [Hd Hok]]]
        end.
        exists (first :: calls). simpl in Hh |- *. rewrite Hh, <- app_assoc.
        split; [ reflexivity | split ].
        -- constructor; assumption.
        -- intro Hret. rewrite (Hok Hret). reflexivity.
      * exists [first]. simpl.
        split; [ reflexivity | split; [ repeat constructor; assumption | discriminate ] ].
Qed.

Lemma entryLoop_completed (readme : string) (entries : list AutoGenConfig)
  (s s1 : State C (list C)) :
  entryLoop readme entries s = (s1, Ok tt) ->
  history s1 = history s ++ map (GenerateSchemas readme) (filter enabled entries).
Proof.
  intro Hloop. destruct (entryLoop_calls readme entries s) as [calls [Hh [_ Hok]]].
  rewrite Hloop in Hh, Hok. simpl in Hh, Hok. rewrite Hh, (Hok eq_refl). reflexivity.
Qed.

(** C9: the program hands only enabled entries to the generation routine;
    and when the routine throws for an enabled entry, the throw is the
    outcome of the whole invocation: the entries after it are not handed
    over, and the references are not saved. *)
Theorem generation_failure_aborts_the_invocation (localPath basePath : string)
  (s : State C (list C)) :
  (exists events,
     history (fst (generateSingle localPath basePath s)) = history s ++ events
     /\ forall readme autoGenConfig,
          In (GenerateSchemas readme autoGenConfig) events ->
          isDisabled autoGenConfig = false)
  /\ forall readme before failing after s1 error,
       validateAndReturnReadmePath (history s) localPath basePath = Ok readme ->
       findOrGenerateAutogenEntries (history s) basePath readme
       = Ok (before ++ failing :: after) ->
       entryLoop readme before s = (s1, Ok tt) ->
       isDisabled failing = false ->
       generateSchemas (history s1) readme failing = Throw error ->
       generateSingle localPath basePath s
       = ({| history := history s
                        ++ map (GenerateSchemas readme) (filter enabled before ++ [failing]);
             locals := locals s1 |},
          Throw error).
Proof.
  split.
  - unfold generateSingle, tryCatch, andThen, ask, throw, getLocals, call.
    destruct (validateAndReturnReadmePath (history s) localPath basePath) as [readme | e].
    2:{ exists []. simpl. rewrite app_nil_r. split; [ reflexivity | intros ? ? [] ]. }
    destruct (findOrGenerateAutogenEntries (history s) basePath readme) as [entries | e].
    2:{ exists []. simpl. rewrite app_nil_r. split; [ reflexivity | intros ? ? [] ]. }
    destruct (entryLoop_calls readme entries s) as [calls [Hh [Hd _]]].
    destruct (entryLoop readme entries s) as [s1 [ [] | e ]]; simpl in Hh |- *.
    + exists (map (GenerateSchemas readme) calls ++ [SaveRefs (locals s1)]).
      rewrite Hh, <- app_assoc. split; [ reflexivity | ].
      intros rd cfg Hin. apply in_app_or in Hin as [Hin | [Hin | []]]; [ | discriminate Hin ].
      apply in_map_iff in Hin as [cfg' [Heq Hin]]. inversion Heq; subst.
      rewrite Forall_forall in Hd. exact (Hd _ Hin).
    + exists (map (GenerateSchemas readme) calls). split; [ exact Hh | ].
      intros rd cfg Hin.
      apply in_map_iff in Hin as [cfg' [Heq Hin]]. inversion Heq; subst.
      rewrite Forall_forall in Hd. exact (Hd _ Hin).
  - intros readme before failing after s1 error Hreadme Hentries Hbefore Henabled Hthrow.
    unfold generateSingle, tryCatch, andThen, ask.
    rewrite Hreadme, Hentries, entryLoop_app, Hbefore, entryLoop_step.
    rewrite (processEntry_enabled _ _ _ Henabled), Hthrow.
    rewrite (entryLoop_completed readme before s s1 Hbefore), map_app, <- app_assoc.
    reflexivity.
Qed.

End Single.

Lemma generation_failure_aborts_the_invocation_witness :
  validateAndReturnReadmePath (Collaborators := Examples.single)
    (history (start (C := string))) "/specs" Examples.svcA
  = Ok Examples.svcAReadme
  /\ findOrGenerateAutogenEntries (Collaborators := Examples.single)
       (history (start (C := string))) Examples.svcA Examples.svcAReadme
     = Ok ([ Examples.entry Examples.svcA "Microsoft.First";
             Examples.disabledEntry Examples.svcA "Microsoft.Off" ]
           ++ Examples.entry Examples.svcA "Microsoft.Broken"
              :: [ Examples.entry Examples.svcA "Microsoft.Third" ])
  /\ entryLoop (collaborators := Examples.single) Examples.svcAReadme
       [ Examples.entry Examples.svcA "Microsoft.First";
         Examples.disabledEntry Examples.svcA "Microsoft.Off" ] start
     = (Examples.afterFirst, Ok tt)
  /\ isDisabled (Examples.entry Examples.svcA "Microsoft.Broken") = false
  /\ generateSchemas (Collaborators := Examples.single)
       (history Examples.afterFirst) Examples.svcAReadme
       (Examples.entry Examples.svcA "Microsoft.Broken")
     = Throw (Error "autorest exited with code 1")
  /\ generateSingle (collaborators := Examples.single) "/specs" Examples.svcA start
     = ({| history := [ GenerateSchemas Examples.svcAReadme
                          (Examples.entry Examples.svcA "Microsoft.First");
                        GenerateSchemas Examples.svcAReadme
                          (Examples.entry Examples.svcA "Microsoft.Broken") ];
           locals := ["Microsoft.First.json"] |},
        Throw (Error "autorest exited with code 1")).
Proof.
  repeat (split; [ reflexivity | ]).
  exact (proj2 (generation_failure_aborts_the_invocation (collaborators := Examples.single)
                  "/specs" Examples.svcA start)
               Examples.svcAReadme
               [ Examples.entry Examples.svcA "Microsoft.First";
                 Examples.disabledEntry Examples.svcA "Microsoft.Off" ]
               (Examples.entry Examples.svcA "Microsoft.Broken")
               [ Examples.entry Examples.svcA "Microsoft.Third" ]
               Examples.afterFirst
               (Error "autorest exited with code 1")
               eq_refl eq_refl eq_refl eq_refl eq_refl).
Defined.

End SingleFacts.

(** ** The reference resolver, on every value *)

Module ResolverMore.
Import Js Json JsNotations ListResources Unfolded Stated Further.

Lemma eachElement_settled (elems : list JValue) :
  Forall settled elems ->
  eachElement elems
  = if nullFree (JArray elems) then Ok (markers (JArray elems)) else Throw nullKeysError.
Proof.
  induction 1 as [ | v rest [Hv _] _ IH ]; [ reflexivity | ].
  change (eachElement (v :: rest))
    with (foundRefs <- findAllReferences v;; refs <- eachElement rest;; Ok (foundRefs ++ refs)).
  rewrite ResolverFacts.nullFree_array_cons, ResolverFacts.markers_array_cons, Hv, IH.
  destruct (nullFree v); [ | reflexivity ].
  destruct (nullFree (JArray rest)); reflexivity.
Qed.

Lemma overIndices_settled (elems : list JValue) :
  Forall settled elems ->
  forall i,
    overIndices i elems
    = if nullFree (JArray elems) then Ok (markers (JArray elems)) else Throw nullKeysError.
Proof.
  induction 1 as [ | v rest [_ Hv] _ IH ]; intro i; [ reflexivity | ].
  simpl overIndices.
  rewrite ResolverFacts.nullFree_array_cons, ResolverFacts.markers_array_cons, Hv, IH.
  destruct (nullFree v); [ | reflexivity ].
  destruct (nullFree (JArray rest)); [ | reflexivity ].
  simpl. f_equal. f_equal.
  destruct v; try reflexivity.
  simpl. rewrite JsFacts.indexKey_not_ref. reflexivity.
Qed.

Lemma overFields_settled (fields : list (string * JValue)) :
  Forall (fun kv => settled (snd kv)) fields ->
  overFields fields
  = if nullFree (JObject fields) then Ok (markers (JObject fields)) else Throw nullKeysError.
Proof.
  induction 1 as [ | [key v] rest [_ Hv] _ IH ]; [ reflexivity | ].
  simpl overFields.
  rewrite ResolverFacts.nullFree_object_cons, ResolverFacts.markers_object_cons, Hv, IH.
  simpl snd. destruct (nullFree v); [ | reflexivity ].
  destruct (nullFree (JObject rest)); reflexivity.
Qed.

Lemma settled_all (v : JValue) : settled v.
Proof.
  induction v as [ | b | n | s | elems IH | fields IH ]
    using ResolverFacts.JValue_nested_ind.
  - split; reflexivity.
  - split; reflexivity.
  - split; reflexivity.
  - split; [ reflexivity | intro key; simpl; destruct (String.eqb key "$ref"); reflexivity ].
  - split.
    + rewrite ResolverFacts.findAllReferences_array. apply overIndices_settled. exact IH.
    + intro key. simpl visit. apply eachElement_settled. exact IH.
  - assert (findAllReferences (JObject fields)
            = if nullFree (JObject fields) then Ok (markers (JObject fields))
              else Throw nullKeysError) as H.
    { rewrite ResolverFacts.findAllReferences_object. apply overFields_settled. exact IH. }
    split; [ exact H | intro key; exact H ].
Qed.

(** The resolver on any value: it returns the markers when the value holds
    no [null], and throws the [TypeError] of [Object.keys(null)] when it
    holds one, wherever the [null] is and whatever was found before it. *)
Theorem findAllReferences_decided (input : JValue) :
  findAllReferences input
  = if nullFree input then Ok (markers input) else Throw nullKeysError.
Proof. exact (proj1 (settled_all input)). Qed.

End ResolverMore.

(** ** The resource catalog: spelling of the keys, and what can be found *)

Module CatalogMore.
Import Js Json ListResources Stated Further.

Lemma addResource_keys (c : Catalog) (d : Resource) :
  map fst (addResource c d) = map fst c
  \/ (map fst (addResource c d) = map fst c ++ [type d]
      /\ forall key, In key (map fst c) -> sameType key (type d) = false).
Proof.
  unfold addResource.
  destruct (find _ (map fst c)) as [k | ] eqn:Hfind.
  - left. apply CatalogFacts.pushAt_keys.
  - destruct (String.eqb (type d) "__proto__"); [ left; reflexivity | ].
    right. split.
    + rewrite CatalogFacts.pushAt_keys, map_app. reflexivity.
    + intros key Hkey. rewrite <- CatalogFacts.find_predicate.
      exact (find_none _ _ Hfind key Hkey).
Qed.

(** Nothing inserted so far is of the type of a descriptor that finds no
    key. *)
Lemma unmatched_is_new (c : Catalog) (inserted : list Resource) (t : string) :
  Filed c inserted ->
  (forall key, In key (map fst c) -> sameType key t = false) ->
  Forall (fun earlier => sameType t (type earlier) = false) inserted.
Proof.
  intros HF Hnone. apply Forall_forall. intros earlier Hin.
  destruct (types_filed _ _ HF earlier Hin) as [key [Hkey Hsame]].
  destruct (sameType t (type earlier)) eqn:Ht; [ | reflexivity ].
  rewrite CatalogFacts.sameType_sym in Ht.
  pose proof (CatalogFacts.sameType_trans _ _ _ Hsame Ht) as Hkt.
  rewrite (Hnone key Hkey) in Hkt. discriminate.
Qed.

(** Every key of the table is spelled as the first inserted descriptor of
    its type spells it: later spellings never rename a key. *)
Theorem every_key_is_a_first_spelling (inserted : list Resource) :
  Forall (fun d => type d <> "__proto__") inserted ->
  forall key, In key (map fst (addResources [] inserted)) ->
              firstOfItsType key inserted.
Proof.
  induction inserted as [ | d rest IH ] using rev_ind; intros Hproto key Hkey.
  - destruct Hkey.
  - apply Forall_app in Hproto as [Hrest Hd].
    rewrite CatalogFacts.addResources_snoc in Hkey.
    assert (firstOfItsType key rest -> firstOfItsType key (rest ++ [d])) as Hextend.
    { intros [before [first [after [-> [Htype Hbefore]]]]].
      exists before, first, (after ++ [d]).
      rewrite <- app_assoc. repeat split; assumption. }
    destruct (addResource_keys (addResources [] rest) d) as [Hsame | [Hnew Hnone]].
    + rewrite Hsame in Hkey. exact (Hextend (IH Hrest key Hkey)).
    + rewrite Hnew in Hkey. apply in_app_or in Hkey as [Hkey | [<- | []]].
      * exact (Hextend (IH Hrest key Hkey)).
      * exists rest, d, []. repeat split.
        exact (unmatched_is_new _ _ _ (CatalogFacts.addResources_Filed rest Hrest) Hnone).
Qed.

Lemma every_key_is_a_first_spelling_witness :
  Forall (fun d => type d <> "__proto__") Examples.widgetInsertions
  /\ In "Contoso.Widgets/widgets" (map fst (addResources [] Examples.widgetInsertions))
  /\ firstOfItsType "Contoso.Widgets/widgets" Examples.widgetInsertions.
Proof.
  assert (Forall (fun d => type d <> "__proto__") Examples.widgetInsertions) as Hproto.
  { repeat constructor; discriminate. }
  assert (In "Contoso.Widgets/widgets"
             (map fst (addResources [] Examples.widgetInsertions))) as Hkey.
  { left. reflexivity. }
  split; [ exact Hproto | split; [ exact Hkey | ] ].
  exact (every_key_is_a_first_spelling Examples.widgetInsertions Hproto _ Hkey).
Defined.

(** What was inserted can be found: the version of every inserted
    descriptor is listed under the one key of its type. *)
Theorem every_insertion_is_listed (inserted : list Resource) (d : Resource) :
  Forall (fun d' => type d' <> "__proto__") inserted ->
  In d inserted ->
  exists key versions,
    In (key, versions) (addResources [] inserted)
    /\ sameType key (type d) = true
    /\ In (apiVersion d) versions
    /\ forall key' versions',
         In (key', versions') (addResources [] inserted) ->
         sameType key' (type d) = true -> key' = key.
Proof.
  intros Hproto Hin.
  pose proof (CatalogFacts.addResources_Filed inserted Hproto) as HF.
  destruct (types_filed _ _ HF d Hin) as [key [Hkey Hsame]].
  apply in_map_iff in Hkey as [[key0 versions] [Heq Hentry]]. simpl in Heq. subst key0.
  exists key, versions. repeat split; try assumption.
  - rewrite (versions_filed _ _ HF key versions Hentry).
    unfold versionsInserted. apply in_map. apply filter_In. split; assumption.
  - intros key' versions' Hentry' Hsame'.
    apply (CatalogFacts.injective_on_NoDup toLowerCase
             (map fst (addResources [] inserted))).
    + exact (keys_apart _ _ HF).
    + apply (in_map fst) in Hentry'. exact Hentry'.
    + apply (in_map fst) in Hentry. exact Hentry.
    + rewrite CatalogFacts.sameType_sym in Hsame.
      apply String.eqb_eq. exact (CatalogFacts.sameType_trans _ _ _ Hsame' Hsame).
Qed.

Lemma every_insertion_is_listed_witness :
  Forall (fun d' => type d' <> "__proto__") Examples.widgetInsertions
  /\ In {| apiVersion := "2021-01-01"; type := "contoso.widgets/Widgets" |}
        Examples.widgetInsertions
  /\ exists key versions,
       In (key, versions) (addResources [] Examples.widgetInsertions)
       /\ sameType key "contoso.widgets/Widgets" = true
       /\ In "2021-01-01" versions
       /\ forall key' versions',
            In (key', versions') (addResources [] Examples.widgetInsertions) ->
            sameType key' "contoso.widgets/Widgets" = true -> key' = key.
Proof.
  assert (Forall (fun d' => type d' <> "__proto__") Examples.widgetInsertions) as Hproto.
  { repeat constructor; discriminate. }
  assert (In {| apiVersion := "2021-01-01"; type := "contoso.widgets/Widgets" |}
             Examples.widgetInsertions) as Hin.
  { right. right. left. reflexivity. }
  split; [ exact Hproto | split; [ exact Hin | ] ].
  exact (every_insertion_is_listed Examples.widgetInsertions _ Hproto Hin).
Defined.

(** A descriptor of type [__proto__] that finds no key leaves the table as
    it was: its version is listed nowhere. *)
Theorem proto_is_not_filed (c : Catalog) (version : string) :
  (forall key, In key (map fst c) -> sameType key "__proto__" = false) ->
  addResource c {| apiVersion := version; type := "__proto__" |} = c.
Proof.
  intro Hnone. unfold addResource. simpl type.
  destruct (find _ (map fst c)) as [k | ] eqn:Hfind; [ | reflexivity ].
  apply find_some in Hfind as [Hk Hsame].
  rewrite CatalogFacts.find_predicate, (Hnone k Hk) in Hsame. discriminate.
Qed.

Lemma proto_is_not_filed_witness :
  (forall key, In key (map fst (addResources [] Examples.widgetInsertions)) ->
               sameType key "__proto__" = false)
  /\ addResource (addResources [] Examples.widgetInsertions)
       {| apiVersion := "2020-01-01"; type := "__proto__" |}
     = addResources [] Examples.widgetInsertions.
Proof.
  assert (forall key, In key (map fst (addResources [] Examples.widgetInsertions)) ->
                      sameType key "__proto__" = false) as Hnone.
  { intros key [<- | []]. reflexivity. }
  split; [ exact Hnone | ].
  exact (proto_is_not_filed (addResources [] Examples.widgetInsertions) "2020-01-01" Hnone).
Defined.

End CatalogMore.

(** ** The schema loader: what is read, and the errors before the test *)

Module LoaderMore.
Import Js Json JsNotations ListResources Stated Further.

Lemma toLowerCase_append (a b : string) :
  toLowerCase (String.append a b) = String.append (toLowerCase a) (toLowerCase b).
Proof.
  induction a as [ | c rest IH ]; [ reflexivity | ].
  simpl. rewrite IH. reflexivity.
Qed.

Lemma toLowerCase_length (a : string) : String.length (toLowerCase a) = String.length a.
Proof.
  induction a as [ | c rest IH ]; [ reflexivity | ].
  simpl. rewrite IH. reflexivity.
Qed.

Lemma startsWith_common (x s p : string) :
  startsWith (String.append x s) (String.append x p) = startsWith s p.
Proof.
  induction x as [ | c rest IH ]; [ reflexivity | ].
  simpl. rewrite Ascii.eqb_refl, IH. reflexivity.
Qed.

Lemma substring_past (a b : string) (n : nat) :
  substring (String.length a + n) (String.append a b) = substring n b.
Proof.
  induction a as [ | c rest IH ]; [ reflexivity | ].
  simpl. exact IH.
Qed.

Lemma split_without_separator (sep : ascii) (s : string) :
  occurs sep s = false -> split sep s = [s].
Proof.
  induction s as [ | c rest IH ]; intro Hs; [ reflexivity | ].
  simpl in Hs. apply orb_false_iff in Hs as [Hc Hrest].
  simpl. rewrite Hc, (IH Hrest). reflexivity.
Qed.

Lemma descend_app (schema : option JValue) (reached rest : list string) :
  descend schema (reached ++ rest)
  = (node <- descend schema reached;; descend node rest).
Proof.
  revert schema. induction reached as [ | key others IH ]; intro schema; [ reflexivity | ].
  simpl. destruct (getProp schema key) as [next | e]; [ apply IH | reflexivity ].
Qed.

Section Loader.
Context {store : SchemaStore}.

(** Under the base, spelled in any case, a URI is read from the file its
    remainder names: the base and the slash are cut off, the remainder is
    used as it is written. *)
Theorem readSchema_reads_the_remainder (prefix relative : string) :
  toLowerCase prefix = toLowerCase schemasBaseUri ->
  readSchema (String.append prefix (String.append "/" relative)) = readJsonFile relative.
Proof.
  intro Hprefix. unfold readSchema, underSchemasBase.
  assert (String.length schemasBaseUri = String.length prefix) as ->.
  { rewrite <- (toLowerCase_length prefix), Hprefix. symmetry. apply toLowerCase_length. }
  rewrite toLowerCase_append, Hprefix, startsWith_common, substring_past.
  simpl. rewrite CandidateFacts.startsWith_empty. reflexivity.
Qed.

(** A reference without ['#'] is refused before anything is looked at: the
    fragment is [undefined], and taking its [substring] throws.  This comes
    before the test of the URI, so it is the error also of a reference that
    is not under the base. *)
Theorem reference_without_fragment_throws (schemaRef : string) :
  occurs "#" schemaRef = false ->
  getResourceInfo schemaRef = Throw noFragmentError.
Proof.
  intro Hnone. unfold getResourceInfo, resolveEnumerations, targetNode, relativeRef.
  rewrite (split_without_separator "#" schemaRef Hnone). reflexivity.
Qed.

(** A path that names a property the document does not have, neither as
    its own nor as a member inherited from a built-in prototype: the descent
    reaches [undefined], and the next read, of the following path element
    or of [properties], throws the engine's [TypeError], which names what was
    being read.  It is not the malformed-schema error. *)
Theorem missing_property_is_a_type_error (schemaRef fragment : string)
  (document : JValue) (reached rest : list string) :
  relativeRef schemaRef = Ok fragment ->
  readSchema (documentUri schemaRef) = Ok document ->
  split "/" fragment = reached ++ rest ->
  descend (Some document) reached = Ok None ->
  getResourceInfo schemaRef = Throw (undefinedPropertyError (hd "properties" rest)).
Proof.
  intros Hfragment Hread Hsplit Hreached.
  unfold getResourceInfo, resolveEnumerations, targetNode.
  rewrite Hfragment. cbn [bind]. rewrite Hread. cbn [bind].
  rewrite Hsplit, descend_app, Hreached. cbn [bind].
  destruct rest; reflexivity.
Qed.

End Loader.

Lemma readSchema_reads_the_remainder_witness :
  toLowerCase "HTTPS://Schema.Management.Azure.COM/schemas"
  = toLowerCase (schemasBaseUri (SchemaStore := Examples.store))
  /\ readSchema (store := Examples.store)
       "HTTPS://Schema.Management.Azure.COM/schemas/common/definitions.json"
     = Ok (JObject []).
Proof.
  split; [ reflexivity | ].
  exact (readSchema_reads_the_remainder (store := Examples.store)
           "HTTPS://Schema.Management.Azure.COM/schemas" "common/definitions.json" eq_refl).
Defined.

Lemma reference_without_fragment_throws_witness :
  occurs "#" "http://json-schema.org/draft-04/schema" = false
  /\ getResourceInfo (store := Examples.store) "http://json-schema.org/draft-04/schema"
     = Throw noFragmentError.
Proof.
  split; [ reflexivity | ].
  exact (reference_without_fragment_throws (store := Examples.store)
           "http://json-schema.org/draft-04/schema" eq_refl).
Defined.

Lemma missing_property_is_a_type_error_witness :
  relativeRef FurtherExamples.strayRef = Ok "definitions/widgets/properties"
  /\ readSchema (store := Examples.store) (documentUri FurtherExamples.strayRef)
     = Ok FurtherExamples.contoso2020
  /\ split "/" "definitions/widgets/properties" = ["definitions"] ++ ["widgets"; "properties"]
  /\ descend (Some FurtherExamples.contoso2020) ["definitions"] = Ok None
  /\ getResourceInfo (store := Examples.store) FurtherExamples.strayRef
     = Throw (TypeError "Cannot read properties of undefined (reading 'widgets')").
Proof.
  repeat (split; [ reflexivity | ]).
  exact (missing_property_is_a_type_error (store := Examples.store)
           FurtherExamples.strayRef "definitions/widgets/properties"
           FurtherExamples.contoso2020 ["definitions"] ["widgets"; "properties"]
           eq_refl eq_refl eq_refl eq_refl).
Defined.

End LoaderMore.

(** ** The listing as a whole *)

Module ListingMore.
Import Js Json JsNotations ListResources Stated Further.

Section Listing.
Context {store : SchemaStore}.

Lemma collectRefs_under (roots : list string) (allRefs collected : list string) :
  Forall (fun schemaRef => underSchemasBase schemaRef = true) allRefs ->
  collectRefs allRefs roots = Ok collected ->
  Forall (fun schemaRef => underSchemasBase schemaRef = true) collected.
Proof.
  revert allRefs. induction roots as [ | root others IH ]; intros allRefs Hall Hrun.
  - simpl in Hrun. inversion Hrun; subst. exact Hall.
  - cbn [collectRefs] in Hrun.
    destruct (readSchema root) as [rootSchema | e]; cbn [bind] in Hrun;
      [ | discriminate Hrun ].
    destruct (findAllReferences rootSchema) as [found | e]; cbn [bind] in Hrun;
      [ | discriminate Hrun ].
    apply (IH _ ) in Hrun; [ exact Hrun | ].
    apply Forall_app. split; [ exact Hall | ].
    apply Forall_forall. intros schemaRef Hin. apply filter_In in Hin. tauto.
Qed.

(** Whenever the candidates are returned, each of them names a document
    under the base that is none of the roots: resolving a candidate never
    fails with the invalid-URI error of [readSchema], which goes on to read
    the file, and never reads a root document. *)
Theorem candidates_pass_the_uri_check (candidates : list string) :
  occurs "#" schemasBaseUri = false ->
  findAllResourceReferences = Ok candidates ->
  forall schemaRef,
    In schemaRef candidates ->
    readSchema (documentUri schemaRef)
    = readJsonFile (substring (String.length schemasBaseUri + 1) (documentUri schemaRef))
    /\ forall root, In root rootSchemaPaths ->
                    lowerCaseCompare (documentUri schemaRef) root <> 0%Z.
Proof.
  intros Hbase Hrun schemaRef Hin.
  unfold findAllResourceReferences in Hrun.
  destruct (collectRefs [] rootSchemaPaths) as [collected | e] eqn:Hcollect;
    unfold bind in Hrun; [ | discriminate Hrun ].
  injection Hrun as <-.
  apply (proj1 (CandidateFacts.spreadSet_In _ _)) in Hin.
  apply (proj1 (CandidateFacts.dropRoot_all rootSchemaPaths collected schemaRef)) in Hin.
  destruct Hin as [Hin Hroots].
  split; [ | exact Hroots ].
  pose proof (collectRefs_under _ _ _ (Forall_nil _) Hcollect) as Hunder.
  rewrite Forall_forall in Hunder. specialize (Hunder schemaRef Hin).
  rewrite (CandidateFacts.underSchemasBase_documentUri schemaRef Hbase) in Hunder.
  unfold readSchema. rewrite Hunder. reflexivity.
Qed.

(** The table the listing prints, when every candidate resolves: the
    descriptors of the candidates, candidate by candidate, inserted in that
    order into an empty table. *)
Theorem listing_inserts_every_descriptor (candidates : list string)
  (resolved : list (list Resource)) :
  findAllResourceReferences = Ok candidates ->
  Forall2 (fun schemaRef resources => getResourceInfo schemaRef = Ok resources)
          candidates resolved ->
  listResources = Ok (addResources [] (List.concat resolved)).
Proof.
  intros Hcandidates Hresolved. unfold listResources.
  rewrite Hcandidates. cbn [bind].
  exact (CatalogFacts.catalogRefs_inserts candidates resolved Hresolved []).
Qed.

Lemma collectRefs_stops (before after : list string) (root : string)
  (collected : list (list string)) (error : Exn) (allRefs : list string) :
  Forall2 collects before collected ->
  (rootSchema <- readSchema root;; findAllReferences rootSchema) = Throw error ->
  collectRefs allRefs (before ++ root :: after) = Throw error.
Proof.
  intros Hbefore Hroot. revert allRefs.
  induction Hbefore as [ | r found rs collected [rootSchema [Hread Hfound]] _ IH ];
    intro allRefs.
  - simpl. destruct (readSchema root) as [rootSchema | e]; cbn [bind] in Hroot |- *.
    + rewrite Hroot. reflexivity.
    + exact Hroot.
  - simpl. rewrite Hread. cbn [bind]. rewrite Hfound. cbn [bind]. apply IH.
Qed.

(** A root document that cannot be read, or in which the resolver throws
    (it holds a [null]), ends the listing with that error: nothing is
    resolved and no table is printed, whatever the other roots hold. *)
Theorem root_failure_ends_the_listing (before after : list string) (root : string)
  (collected : list (list string)) (error : Exn) :
  rootSchemaPaths = before ++ root :: after ->
  Forall2 collects before collected ->
  (rootSchema <- readSchema root;; findAllReferences rootSchema) = Throw error ->
  listResources = Throw error.
Proof.
  intros Hroots Hbefore Hroot.
  unfold listResources, findAllResourceReferences.
  rewrite Hroots at 1.
  rewrite (collectRefs_stops before after root collected error [] Hbefore Hroot).
  reflexivity.
Qed.

End Listing.

Lemma candidates_pass_the_uri_check_witness :
  occurs "#" (schemasBaseUri (SchemaStore := Examples.store)) = false
  /\ findAllResourceReferences (store := Examples.store)
     = Ok [Examples.widgetsRef2020; Examples.widgetsRef2021]
  /\ In Examples.widgetsRef2021 [Examples.widgetsRef2020; Examples.widgetsRef2021]
  /\ readSchema (store := Examples.store) (documentUri Examples.widgetsRef2021)
     = readJsonFile (SchemaStore := Examples.store) "2021-01-01/Contoso.Widgets.json"
  /\ forall root, In root rootSchemaPaths ->
                  lowerCaseCompare (documentUri Examples.widgetsRef2021) root <> 0%Z.
Proof.
  split; [ reflexivity | split; [ reflexivity | split; [ right; left; reflexivity | ] ] ].
  exact (candidates_pass_the_uri_check (store := Examples.store)
           [Examples.widgetsRef2020; Examples.widgetsRef2021] eq_refl eq_refl
           Examples.widgetsRef2021 (or_intror (or_introl eq_refl))).
Defined.

Lemma listing_inserts_every_descriptor_witness :
  findAllResourceReferences (store := Examples.store)
  = Ok [Examples.widgetsRef2020; Examples.widgetsRef2021]
  /\ Forall2 (fun schemaRef resources =>
                getResourceInfo (store := Examples.store) schemaRef = Ok resources)
       [Examples.widgetsRef2020; Examples.widgetsRef2021]
       [ [ {| apiVersion := "2020-01-01"; type := "Contoso.Widgets/widgets" |} ];
         [ {| apiVersion := "2020-01-01"; type := "contoso.widgets/Widgets" |};
           {| apiVersion := "2021-01-01"; type := "contoso.widgets/Widgets" |} ] ]
  /\ listResources (store := Examples.store)
     = Ok [ ("Contoso.Widgets/widgets", ["2020-01-01"; "2020-01-01"; "2021-01-01"]) ].
Proof.
  assert (Forall2 (fun schemaRef resources =>
                     getResourceInfo (store := Examples.store) schemaRef = Ok resources)
            [Examples.widgetsRef2020; Examples.widgetsRef2021]
            [ [ {| apiVersion := "2020-01-01"; type := "Contoso.Widgets/widgets" |} ];
              [ {| apiVersion := "2020-01-01"; type := "contoso.widgets/Widgets" |};
                {| apiVersion := "2021-01-01"; type := "contoso.widgets/Widgets" |} ] ])
    as Hresolved.
  { repeat constructor. }
  split; [ reflexivity | split; [ exact Hresolved | ] ].
  exact (listing_inserts_every_descriptor (store := Examples.store) _ _ eq_refl Hresolved).
Defined.

Lemma root_failure_ends_the_listing_witness :
  rootSchemaPaths
  = [ "https://schema.management.azure.com/schemas/2019-04-01/deploymentTemplate.json" ]
    ++ "https://schema.management.azure.com/schemas/common/definitions.json"
       :: [ "https://schema.management.azure.com/schemas/common/autogeneratedResources.json";
            "https://schema.management.azure.com/schemas/common/manuallyAddedResources.json" ]
  /\ Forall2 (collects (store := FurtherExamples.nullStore))
       [ "https://schema.management.azure.com/schemas/2019-04-01/deploymentTemplate.json" ]
       [ [ String.append Examples.base
             "/common/autogeneratedResources.json#/allResourceDefinitions";
           "#/definitions/resourceBase" ] ]
  /\ (rootSchema <- readSchema (store := FurtherExamples.nullStore)
                      "https://schema.management.azure.com/schemas/common/definitions.json";;
      findAllReferences rootSchema)
     = Throw nullKeysError
  /\ listResources (store := FurtherExamples.nullStore) = Throw nullKeysError.
Proof.
  assert (Forall2 (collects (store := FurtherExamples.nullStore))
            [ "https://schema.management.azure.com/schemas/2019-04-01/deploymentTemplate.json" ]
            [ [ String.append Examples.base
                  "/common/autogeneratedResources.json#/allResourceDefinitions";
                "#/definitions/resourceBase" ] ]) as Hbefore.
  { repeat constructor. eexists. split; reflexivity. }
  split; [ reflexivity | split; [ exact Hbefore | split; [ reflexivity | ] ] ].
  exact (root_failure_ends_the_listing (store := FurtherExamples.nullStore)
           [ "https://schema.management.azure.com/schemas/2019-04-01/deploymentTemplate.json" ]
           [ "https://schema.management.azure.com/schemas/common/autogeneratedResources.json";
             "https://schema.management.azure.com/schemas/common/manuallyAddedResources.json" ]
           "https://schema.management.azure.com/schemas/common/definitions.json"
           _ nullKeysError eq_refl Hbefore eq_refl).
Defined.

End ListingMore.

(** ** The batch orchestrator: the allow-list, the events, the epilogue *)

Module BatchMore.
Import Js Generate StepNotations GenerateAll StatedBatch FurtherBatch.

Lemma startsWith_nonempty (s p : string) :
  startsWith s (String.append "specification/" p) = true -> s <> EmptyString.
Proof. intros H ->. discriminate H. Qed.

Lemma restrict_cons (files : list string) (c : AutoGenConfig)
  (others : list AutoGenConfig) :
  restrictToReadmeFiles files (c :: others)
  = match listedFor files c with
    | Some r => withReadme c r :: restrictToReadmeFiles files others
    | None => restrictToReadmeFiles files others
    end.
Proof.
  unfold listedFor. simpl.
  destruct (find _ files) as [r | ] eqn:Hfind; [ | reflexivity ].
  apply find_some in Hfind as [_ Hstarts].
  apply startsWith_nonempty, String.eqb_neq in Hstarts. rewrite Hstarts. reflexivity.
Qed.

Lemma restrict_In (files : list string) (entries : list AutoGenConfig) (c : AutoGenConfig) :
  In c (restrictToReadmeFiles files entries)
  <-> exists c0 r, In c0 entries /\ listedFor files c0 = Some r /\ c = withReadme c0 r.
Proof.
  induction entries as [ | first others IH ].
  - simpl. split; [ intros [] | intros [c0 [r [[] _]]] ].
  - rewrite restrict_cons. destruct (listedFor files first) as [r | ] eqn:Hlisted.
    + simpl. rewrite IH. split.
      * intros [<- | [c0 [r0 [Hin [Hl Hc]]]]].
        -- exists first, r. repeat split; [ left; reflexivity | exact Hlisted ].
        -- exists c0, r0. repeat split; [ right; exact Hin | exact Hl | exact Hc ].
      * intros [c0 [r0 [[<- | Hin] [Hl Hc]]]].
        -- left. rewrite Hlisted in Hl. inversion Hl; subst. reflexivity.
        -- right. exists c0, r0. repeat split; assumption.
    + rewrite IH. split.
      * intros [c0 [r0 [Hin [Hl Hc]]]]. exists c0, r0.
        repeat split; [ right; exact Hin | exact Hl | exact Hc ].
      * intros [c0 [r0 [[<- | Hin] [Hl Hc]]]].
        -- rewrite Hlisted in Hl. discriminate Hl.
        -- exists c0, r0. repeat split; assumption.
Qed.

Lemma listed_file (files : list string) (c0 : AutoGenConfig) (r : string) :
  listedFor files c0 = Some r ->
  In r files
  /\ startsWith r (String.append "specification/" (Generate.basePath c0)) = true
  /\ readmeFileOrBasePath (withReadme c0 r) = r
  /\ isDisabled (withReadme c0 r) = isDisabled c0.
Proof.
  intro Hlisted. unfold listedFor in Hlisted.
  apply find_some in Hlisted as [Hin Hstarts].
  repeat split; try assumption.
  unfold readmeFileOrBasePath, withReadme. simpl.
  apply startsWith_nonempty, String.eqb_neq in Hstarts. rewrite Hstarts. reflexivity.
Qed.

(** The allow-list: an entry stays exactly when some listed file lies under
    ["specification/"] followed by its base path; it is then generated from
    the first such file of the list, not from its base path, and is
    otherwise unchanged.  Under an empty list nothing stays. *)
Theorem allow_list_selects_and_overrides (files : list string)
  (entries : list AutoGenConfig) :
  (forall c,
     In c (restrictToReadmeFiles files entries)
     <-> exists c0 r, In c0 entries /\ listedFor files c0 = Some r /\ c = withReadme c0 r)
  /\ (forall c0 r,
        listedFor files c0 = Some r ->
        In r files
        /\ startsWith r (String.append "specification/" (Generate.basePath c0)) = true
        /\ readmeFileOrBasePath (withReadme c0 r) = r
        /\ isDisabled (withReadme c0 r) = isDisabled c0).
Proof.
  split; [ intro c; apply restrict_In | apply listed_file ].
Qed.

Lemma allow_list_selects_and_overrides_witness :
  listedFor ["specification/svcB/resource-manager/readme.md";
             "specification/svcA/resource-manager/readme.md"]
            (Examples.entry Examples.svcA "Microsoft.First")
  = Some "specification/svcA/resource-manager/readme.md"
  /\ In (withReadme (Examples.entry Examples.svcA "Microsoft.First")
                    "specification/svcA/resource-manager/readme.md")
        (restrictToReadmeFiles
           ["specification/svcB/resource-manager/readme.md";
            "specification/svcA/resource-manager/readme.md"]
           [Examples.entry "svcC/resource-manager" "Microsoft.Other";
            Examples.entry Examples.svcA "Microsoft.First"])
  /\ readmeFileOrBasePath
       (withReadme (Examples.entry Examples.svcA "Microsoft.First")
                   "specification/svcA/resource-manager/readme.md")
     = "specification/svcA/resource-manager/readme.md".
Proof.
  split; [ reflexivity | split ].
  - apply (proj1 (allow_list_selects_and_overrides _ _)).
    exists (Examples.entry Examples.svcA "Microsoft.First"),
      "specification/svcA/resource-manager/readme.md".
    split; [ right; left; reflexivity | split; reflexivity ].
  - exact (proj1 (proj2 (proj2 (proj2 (allow_list_selects_and_overrides
             ["specification/svcB/resource-manager/readme.md";
              "specification/svcA/resource-manager/readme.md"] [])
             (Examples.entry Examples.svcA "Microsoft.First")
             "specification/svcA/resource-manager/readme.md" eq_refl)))).
Defined.

Section Batch.
Context {C : Type} {collaborators : Collaborators C}.

Lemma processEntry_events (localPath basePath : string) (autoGenConfig : AutoGenConfig)
  (s : State C (Locals C)) :
  exists events,
    history (fst (processEntry localPath basePath autoGenConfig s)) = history s ++ events
    /\ Forall (entryEvent [autoGenConfig]) events.
Proof.
  unfold processEntry, generateEntry, tryCatch, andThen, ask, call, pushConfigs,
    pushPackage, logOut, emit, setLocals, ret.
  destruct (validateAndReturnReadmePath _ _ _) as [readme | e].
  2:{ eexists. split; [ reflexivity | repeat constructor ]. }
  destruct (getPackageString _ _) as [name | e].
  2:{ eexists. split; [ reflexivity | repeat constructor ]. }
  destruct (generateSchemas _ _ _) as [newConfigs | e]; simpl; rewrite <- app_assoc;
    (eexists; split; [ reflexivity | repeat constructor ]).
Qed.

Lemma entryEvent_incl (entries all : list AutoGenConfig) (ev : Event C) :
  incl entries all -> entryEvent entries ev -> entryEvent all ev.
Proof.
  intros Hincl. destruct ev; simpl; try tauto. apply Hincl.
Qed.

Lemma entryLoop_events (localPath basePath : string) (all entries : list AutoGenConfig)
  (s : State C (Locals C)) :
  incl entries all ->
  exists events,
    history (fst (entryLoop localPath basePath entries s)) = history s ++ events
    /\ Forall (entryEvent all) events.
Proof.
  revert s. induction entries as [ | first others IH ]; intros s Hincl.
  - exists []. simpl. rewrite app_nil_r. split; [ reflexivity | constructor ].
  - rewrite BatchFacts.entryLoop_cons.
    destruct (processEntry_events localPath basePath first s) as [events1 [H1 Hall1]].
    destruct (IH (fst (processEntry localPath basePath first s)))
      as [events2 [H2 Hall2]].
    { intros x Hx. apply Hincl. right. exact Hx. }
    exists (events1 ++ events2). rewrite H2, H1, app_assoc.
    split; [ reflexivity | ].
    apply Forall_app. split; [ | exact Hall2 ].
    apply Forall_forall. intros ev Hev. rewrite Forall_forall in Hall1.
    apply (entryEvent_incl [first] all); [ | exact (Hall1 ev Hev) ].
    intros x [<- | []]. apply Hincl. left. reflexivity.
Qed.

(** The entries the inner loop is given for a base path. *)
Lemma filtered_entries (args : Args) (entries : list AutoGenConfig) (c : AutoGenConfig) :
  In c (match readmeFiles args with
        | Some files => restrictToReadmeFiles files
                          (filter (fun x => negb (isDisabled x)) entries)
        | None => filter (fun x => negb (isDisabled x)) entries
        end) ->
  isDisabled c = false
  /\ forall files, readmeFiles args = Some files ->
                   exists r, readmeFile c = Some r /\ In r files.
Proof.
  destruct (readmeFiles args) as [files | ]; intro Hin.
  - apply restrict_In in Hin.
    destruct Hin as [c0 [r [Hin [Hlisted ->]]]].
    destruct (listed_file files c0 r Hlisted) as [Hr [_ [_ Hdisabled]]].
    apply filter_In in Hin as [_ Henabled]. apply negb_true_iff in Henabled.
    split; [ rewrite Hdisabled; exact Henabled | ].
    intros files' Hfiles. inversion Hfiles; subst. exists r. split; [ reflexivity | exact Hr ].
  - apply filter_In in Hin as [_ Henabled]. apply negb_true_iff in Henabled.
    split; [ exact Henabled | discriminate ].
Qed.

Lemma generateBasePath_events (args : Args) (localPath basePath : string)
  (s : State C (Locals C)) :
  exists events,
    history (fst (generateBasePath args localPath basePath s)) = history s ++ events
    /\ Forall (loopEvent args) events.
Proof.
  unfold generateBasePath, andThen, ask, call.
  destruct (validateAndReturnReadmePath _ _ _) as [readme | e].
  2:{ exists []. simpl. rewrite app_nil_r. split; [ reflexivity | constructor ]. }
  destruct (getApiVersionsByNamespace _ _) as [versions | e].
  2:{ exists []. simpl. rewrite app_nil_r. split; [ reflexivity | constructor ]. }
  destruct (findOrGenerateAutogenEntries _ _ _) as [entries | e].
  2:{ exists []. simpl. rewrite app_nil_r. split; [ reflexivity | constructor ]. }
  pose proof (filtered_entries args entries) as Hfiltered.
  set (filtered := match readmeFiles args with
                   | Some files => restrictToReadmeFiles files
                                     (filter (fun x => negb (isDisabled x)) entries)
                   | None => filter (fun x => negb (isDisabled x)) entries
                   end) in *.
  destruct (clearAutoGeneratedSchemaRefs (history s) filtered) as [ [] | e ].
  2:{ eexists. simpl. split; [ reflexivity | repeat constructor ]. }
  match goal with
  | |- context [entryLoop localPath basePath filtered ?s1] =>
      destruct (entryLoop_events localPath basePath filtered filtered s1 (incl_refl _))
        as [events [Hh Hall]]
  end.
  exists (ClearRefs filtered :: events). rewrite Hh. simpl. rewrite <- app_assoc.
  split; [ reflexivity | ].
  constructor; [ exact I | ].
  apply Forall_forall. intros ev Hev. rewrite Forall_forall in Hall.
  specialize (Hall ev Hev). destruct ev; simpl in Hall |- *; try tauto.
  exact (Hfiltered _ Hall).
Qed.

Lemma processBasePath_events (args : Args) (localPath basePath : string)
  (s : State C (Locals C)) :
  exists events,
    history (fst (processBasePath args localPath basePath s)) = history s ++ events
    /\ Forall (loopEvent args) events.
Proof.
  destruct (generateBasePath_events args localPath basePath s) as [events [Hh Hall]].
  unfold processBasePath, tryCatch.
  destruct (generateBasePath args localPath basePath s) as [s1 [ [] | e ]]; simpl in Hh.
  - exists events. split; assumption.
  - exists (events ++ [SummaryLog (String.append (basePathFailedBlock basePath e) nl)]).
    unfold logOut, emit. simpl. rewrite Hh, <- app_assoc.
    split; [ reflexivity | ].
    apply Forall_app. split; [ exact Hall | repeat constructor ].
Qed.

Lemma basePathLoop_cons (args : Args) (localPath basePath : string)
  (others : list string) (s : State C (Locals C)) :
  basePathLoop args localPath (basePath :: others) s
  = basePathLoop args localPath others (fst (processBasePath args localPath basePath s)).
Proof.
  unfold basePathLoop. simpl forEach. unfold andThen.
  pose proof (BatchFacts.processBasePath_returns args localPath basePath s) as Hret.
  destruct (processBasePath args localPath basePath s) as [s' r].
  simpl in Hret. subst. reflexivity.
Qed.

(** What the loop over the base paths does to the outside: it only appends
    to what happened before; it hands to the generation routine only
    entries that are not disabled and, when an allow-list is given, only
    entries that use a file of the list; it never saves the references and
    never writes the report. *)
Theorem base_path_loop_generates_only_filtered (args : Args) (localPath : string)
  (basePaths : list string) (s : State C (Locals C)) :
  exists events,
    history (fst (basePathLoop args localPath basePaths s)) = history s ++ events
    /\ Forall (loopEvent args) events.
Proof.
  revert s. induction basePaths as [ | basePath others IH ]; intro s.
  - exists []. simpl. rewrite app_nil_r. split; [ reflexivity | constructor ].
  - rewrite basePathLoop_cons.
    destruct (processBasePath_events args localPath basePath s) as [events1 [H1 Hall1]].
    destruct (IH (fst (processBasePath args localPath basePath s)))
      as [events2 [H2 Hall2]].
    exists (events1 ++ events2). rewrite H2, H1, app_assoc.
    split; [ reflexivity | apply Forall_app; split; assumption ].
Qed.

Lemma entryLoop_returns (localPath basePath : string) (entries : list AutoGenConfig)
  (s : State C (Locals C)) :
  snd (entryLoop localPath basePath entries s) = Ok tt.
Proof.
  revert s. induction entries as [ | first others IH ]; intro s; [ reflexivity | ].
  rewrite BatchFacts.entryLoop_cons. apply IH.
Qed.

Lemma summaryLines_app (h1 h2 : list (Event C)) :
  summaryLines (h1 ++ h2) = summaryLines h1 ++ summaryLines h2.
Proof. unfold summaryLines. apply flat_map_app. Qed.

(** A throw of one of the four calls that come before the inner loop, the
    readme lookup, the listing of the namespaces, the lookup of the entries
    or the clearing of the references, is caught by the outer handler: the
    base path ends normally, and all that was done for it is the clearing
    call, when it was reached, and one write to the summary log, of the
    failure block that names the base path and carries the text of the
    thrown error.  No entry was handed to the generation routine, and
    [packages] and [schemaConfigs] are as the base path found them. *)
Theorem failure_before_the_entries_is_logged (args : Args) (localPath basePath : string)
  (s : State C (Locals C)) (error : Exn) :
  snd (beforeTheEntries args localPath basePath (history s)) = Throw error ->
  processBasePath args localPath basePath s
  = ({| history := history s
                   ++ fst (beforeTheEntries args localPath basePath (history s))
                   ++ [SummaryLog (LogText.basePathFailure basePath (errorText error))];
        locals := locals s |},
     Ok tt).
Proof.
  unfold beforeTheEntries, entriesFound, processBasePath, tryCatch, generateBasePath,
    andThen, ask, call, logOut, emit.
  destruct (validateAndReturnReadmePath _ _ _) as [readme | e].
  2:{ cbn [fst snd history locals app]. intro H. inversion H; subst.
      rewrite BatchFacts.basePathFailedBlock_written. reflexivity. }
  destruct (getApiVersionsByNamespace _ _) as [versions | e].
  2:{ cbn [fst snd history locals app]. intro H. inversion H; subst.
      rewrite BatchFacts.basePathFailedBlock_written. reflexivity. }
  destruct (findOrGenerateAutogenEntries _ _ _) as [entries | e].
  2:{ cbn [fst snd history locals app]. intro H. inversion H; subst.
      rewrite BatchFacts.basePathFailedBlock_written. reflexivity. }
  cbn [fst snd history locals].
  destruct (clearAutoGeneratedSchemaRefs _ _) as [ [] | e ]; [ discriminate | ].
  intro H. inversion H; subst. cbn [history locals].
  rewrite BatchFacts.basePathFailedBlock_written, <- app_assoc. reflexivity.
Qed.

Lemma processEntry_configs (localPath basePath : string) (autoGenConfig : AutoGenConfig)
  (s : State C (Locals C)) :
  schemaConfigs (locals (fst (processEntry localPath basePath autoGenConfig s)))
  = schemaConfigs (locals s) ++ configsOf localPath autoGenConfig (history s).
Proof.
  unfold configsOf, processEntry, generateEntry, tryCatch, andThen, ask, call, pushConfigs,
    pushPackage, logOut, emit, setLocals, ret.
  destruct (validateAndReturnReadmePath _ _ _) as [readme | e];
    [ | simpl; rewrite app_nil_r; reflexivity ].
  destruct (getPackageString _ _) as [name | e];
    [ | simpl; rewrite app_nil_r; reflexivity ].
  destruct (generateSchemas _ _ _) as [newConfigs | e];
    [ reflexivity | simpl; rewrite app_nil_r; reflexivity ].
Qed.

Lemma processEntry_block (localPath basePath : string) (autoGenConfig : AutoGenConfig)
  (s : State C (Locals C)) :
  summaryLines (history (fst (processEntry localPath basePath autoGenConfig s)))
  = summaryLines (history s) ++ [blockOf localPath basePath autoGenConfig (history s)].
Proof.
  unfold blockOf, generation, processEntry, generateEntry, tryCatch, andThen, ask, call,
    pushConfigs, pushPackage, logOut, emit, setLocals, ret.
  destruct (validateAndReturnReadmePath _ _ _) as [readme | e];
    [ | cbn [fst history locals]; rewrite summaryLines_app,
          BatchFacts.entryFailedBlock_written; reflexivity ].
  destruct (getPackageString _ _) as [name | e];
    [ | cbn [fst history locals]; rewrite summaryLines_app,
          BatchFacts.entryFailedBlock_written; reflexivity ].
  destruct (generateSchemas _ _ _) as [newConfigs | e];
    cbn [fst history locals]; rewrite !summaryLines_app;
    rewrite ?BatchFacts.entryFailedBlock_written, ?BatchFacts.succeededBlock_written;
    cbn [summaryLines flat_map app]; rewrite ?app_nil_r; reflexivity.
Qed.

(** What a loop over the entries adds to anything each entry appends to. *)
Lemma entryLoop_adds {X : Type} (localPath basePath : string)
  (obs : State C (Locals C) -> list X)
  (contribution : AutoGenConfig -> list (Event C) -> list X) :
  (forall autoGenConfig s,
     obs (fst (processEntry localPath basePath autoGenConfig s))
     = obs s ++ contribution autoGenConfig (history s)) ->
  forall entries s,
    exists added,
      obs (fst (entryLoop localPath basePath entries s)) = obs s ++ List.concat added
      /\ List.length added = List.length entries
      /\ forall i autoGenConfig,
           nth_error entries i = Some autoGenConfig ->
           nth_error added i
           = Some (contribution autoGenConfig
                     (history (fst (entryLoop localPath basePath (firstn i entries) s)))).
Proof.
  intros Hstep entries. induction entries as [ | first others IH ]; intro s.
  - exists []. simpl. rewrite app_nil_r.
    split; [ reflexivity | split; [ reflexivity | ] ].
    intros [ | i ] ? H; discriminate H.
  - rewrite BatchFacts.entryLoop_cons.
    destruct (IH (fst (processEntry localPath basePath first s)))
      as [added [Hobs [Hlen Hnth]]].
    exists (contribution first (history s) :: added).
    split; [ | split ].
    + rewrite Hobs, Hstep. simpl. rewrite app_assoc. reflexivity.
    + simpl. rewrite Hlen. reflexivity.
    + intros [ | i ] autoGenConfig Hi; simpl in Hi.
      * inversion Hi; subst. reflexivity.
      * simpl firstn. rewrite BatchFacts.entryLoop_cons. simpl. apply Hnth. exact Hi.
Qed.

(** The configurations the inner loop accumulates: entry by entry, in
    order, what the generation routine returned for the entry, and nothing
    for an entry whose readme, package identifier or generation threw.  No
    failure removes what was accumulated before. *)
Theorem entry_loop_accumulates_successes (localPath basePath : string)
  (entries : list AutoGenConfig) (s : State C (Locals C)) :
  exists added,
    schemaConfigs (locals (fst (entryLoop localPath basePath entries s)))
    = schemaConfigs (locals s) ++ List.concat added
    /\ List.length added = List.length entries
    /\ forall i autoGenConfig,
         nth_error entries i = Some autoGenConfig ->
         nth_error added i
         = Some (configsOf localPath autoGenConfig
                   (history (fst (entryLoop localPath basePath (firstn i entries) s)))).
Proof.
  exact (entryLoop_adds localPath basePath
           (fun st => schemaConfigs (locals st))
           (configsOf localPath)
           (processEntry_configs localPath basePath) entries s).
Qed.

Lemma entryLoop_adds_one {X : Type} (localPath basePath : string)
  (obs : State C (Locals C) -> list X)
  (contribution : AutoGenConfig -> list (Event C) -> X) :
  (forall autoGenConfig s,
     obs (fst (processEntry localPath basePath autoGenConfig s))
     = obs s ++ [contribution autoGenConfig (history s)]) ->
  forall entries s,
    exists added,
      obs (fst (entryLoop localPath basePath entries s)) = obs s ++ added
      /\ List.length added = List.length entries
      /\ forall i autoGenConfig,
           nth_error entries i = Some autoGenConfig ->
           nth_error added i
           = Some (contribution autoGenConfig
                     (history (fst (entryLoop localPath basePath (firstn i entries) s)))).
Proof.
  intros Hstep entries. induction entries as [ | first others IH ]; intro s.
  - exists []. simpl. rewrite app_nil_r.
    split; [ reflexivity | split; [ reflexivity | ] ].
    intros [ | i ] ? H; discriminate H.
  - rewrite BatchFacts.entryLoop_cons.
    destruct (IH (fst (processEntry localPath basePath first s)))
      as [added [Hobs [Hlen Hnth]]].
    exists (contribution first (history s) :: added).
    split; [ | split ].
    + rewrite Hobs, Hstep, <- app_assoc. reflexivity.
    + simpl. rewrite Hlen. reflexivity.
    + intros [ | i ] autoGenConfig Hi; simpl in Hi.
      * inversion Hi; subst. reflexivity.
      * simpl firstn. rewrite BatchFacts.entryLoop_cons. simpl. apply Hnth. exact Hi.
Qed.

(** The summary log of the inner loop: one text per entry, in the order of
    the entries.  For an entry whose generation returned it is the success
    block, which names the base path of the outer loop; for an entry whose
    generation threw it is the failure block, which names the base path and
    the namespace of the entry and carries the text of the thrown error.
    Text and package record of one position tell the same outcome. *)
Theorem entry_loop_logs_every_entry (localPath basePath : string)
  (entries : list AutoGenConfig) (s : State C (Locals C)) :
  exists blocks,
    summaryLines (history (fst (entryLoop localPath basePath entries s)))
    = summaryLines (history s) ++ blocks
    /\ List.length blocks = List.length entries
    /\ forall i autoGenConfig,
         nth_error entries i = Some autoGenConfig ->
         nth_error blocks i
         = Some (match generation localPath autoGenConfig
                         (history (fst (entryLoop localPath basePath
                                          (firstn i entries) s))) with
                 | Ok _ => LogText.entrySuccess basePath
                 | Throw error =>
                     LogText.entryFailure (Generate.basePath autoGenConfig)
                       (namespace autoGenConfig) (errorText error)
                 end).
Proof.
  exact (entryLoop_adds_one localPath basePath
           (fun st => summaryLines (history st))
           (fun autoGenConfig h => blockOf localPath basePath autoGenConfig h)
           (processEntry_block localPath basePath) entries s).
Qed.

Lemma basePathLoop_result (args : Args) (localPath : string) (basePaths : list string)
  (s : State C (Locals C)) :
  basePathLoop args localPath basePaths s
  = (fst (basePathLoop args localPath basePaths s), Ok tt).
Proof.
  revert s. induction basePaths as [ | basePath others IH ]; intro s; [ reflexivity | ].
  rewrite basePathLoop_cons. apply IH.
Qed.

(** Saving comes once, after the loop, with everything accumulated; when it
    throws, the throw is the outcome of the run and the package report is
    not written, whatever the loop recorded. *)
Theorem save_failure_ends_the_run (args : Args) (localPath : string)
  (basePaths : list string) (s : State C (Locals C)) (error : Exn) :
  saveAutoGeneratedSchemaRefs
    (history (fst (basePathLoop args localPath basePaths s)))
    (schemaConfigs (locals (fst (basePathLoop args localPath basePaths s))))
  = Throw error ->
  generateAll args localPath basePaths s
  = ({| history := history (fst (basePathLoop args localPath basePaths s))
                   ++ [SaveRefs (schemaConfigs
                                   (locals (fst (basePathLoop args localPath basePaths s))))];
        locals := locals (fst (basePathLoop args localPath basePaths s)) |},
     Throw error).
Proof.
  intro Hsave. unfold generateAll, andThen.
  rewrite basePathLoop_result. unfold getLocals, call. rewrite Hsave. reflexivity.
Qed.

(** The report, when one is asked for and the references were saved: it is
    written last, to the resolved path, and holds every package record of
    the run, in the order in which the loop appended them. *)
Theorem report_holds_every_package (args : Args) (localPath : string)
  (basePaths : list string) (s : State C (Locals C)) (p resolved : string) :
  outputPath args = Some p ->
  p <> EmptyString ->
  saveAutoGeneratedSchemaRefs
    (history (fst (basePathLoop args localPath basePaths s)))
    (schemaConfigs (locals (fst (basePathLoop args localPath basePaths s))))
  = Ok tt ->
  resolveAbsolutePath
    (history (fst (basePathLoop args localPath basePaths s))
     ++ [SaveRefs (schemaConfigs (locals (fst (basePathLoop args localPath basePaths s))))])
    p
  = Ok resolved ->
  generateAll args localPath basePaths s
  = ({| history := history (fst (basePathLoop args localPath basePaths s))
                   ++ [SaveRefs (schemaConfigs
                                   (locals (fst (basePathLoop args localPath basePaths s))));
                       WriteJson resolved
                         (packages (locals (fst (basePathLoop args localPath basePaths s))))];
        locals := locals (fst (basePathLoop args localPath basePaths s)) |},
     writeJsonFile
       (history (fst (basePathLoop args localPath basePaths s))
        ++ [SaveRefs (schemaConfigs (locals (fst (basePathLoop args localPath basePaths s))))])
       resolved
       (packages (locals (fst (basePathLoop args localPath basePaths s))))).
Proof.
  intros Hpath Hp Hsave Hresolved. unfold generateAll, andThen.
  rewrite basePathLoop_result. unfold getLocals, call. rewrite Hsave, Hpath.
  apply String.eqb_neq in Hp. rewrite Hp.
  unfold andThen, ask. simpl history. rewrite Hresolved. simpl.
  rewrite <- app_assoc. reflexivity.
Qed.

End Batch.

Lemma failure_before_the_entries_is_logged_witness :
  snd (beforeTheEntries (collaborators := locked) Examples.noArgs "/specs" svcLocked
         (history (start (C := string))))
  = Throw (Error "EBUSY: resource busy or locked")
  /\ processBasePath (collaborators := locked) Examples.noArgs "/specs" svcLocked start
     = ({| history := [ClearRefs (Examples.entriesOf svcLocked);
                       SummaryLog svcLockedBlock];
           locals := {| schemaConfigs := []; packages := [] |} |},
        Ok tt).
Proof.
  split; [ reflexivity | ].
  exact (failure_before_the_entries_is_logged (collaborators := locked)
           Examples.noArgs "/specs" svcLocked start
           (Error "EBUSY: resource busy or locked") eq_refl).
Defined.

Lemma entry_loop_accumulates_successes_witness :
  nth_error (Examples.entriesOf Examples.svcA) 1
  = Some (Examples.entry Examples.svcA "Microsoft.Broken")
  /\ exists added,
       schemaConfigs (locals (fst (entryLoop (collaborators := Examples.batch)
                                     "/specs" Examples.svcA
                                     (Examples.entriesOf Examples.svcA) start)))
       = schemaConfigs (locals (start (C := string))) ++ List.concat added
       /\ List.length added = 3
       /\ nth_error added 1 = Some [].
Proof.
  split; [ reflexivity | ].
  destruct (entry_loop_accumulates_successes (collaborators := Examples.batch)
              "/specs" Examples.svcA (Examples.entriesOf Examples.svcA) start)
    as [added [Hconfigs [Hlength Hnth]]].
  exists added. split; [ exact Hconfigs | split; [ exact Hlength | ] ].
  exact (Hnth 1 (Examples.entry Examples.svcA "Microsoft.Broken") eq_refl).
Defined.

Lemma entry_loop_logs_every_entry_witness :
  nth_error (Examples.entriesOf Examples.svcA) 1
  = Some (Examples.entry Examples.svcA "Microsoft.Broken")
  /\ exists blocks,
       summaryLines (history (fst (entryLoop (collaborators := Examples.batch)
                                     "/specs" Examples.svcA
                                     (Examples.entriesOf Examples.svcA) start)))
       = summaryLines (history (start (C := string))) ++ blocks
       /\ List.length blocks = 3
       /\ nth_error blocks 1 = Some brokenEntryBlock.
Proof.
  split; [ reflexivity | ].
  destruct (entry_loop_logs_every_entry (collaborators := Examples.batch)
              "/specs" Examples.svcA (Examples.entriesOf Examples.svcA) start)
    as [blocks [Hlines [Hlength Hnth]]].
  exists blocks. split; [ exact Hlines | split; [ exact Hlength | ] ].
  exact (Hnth 1 (Examples.entry Examples.svcA "Microsoft.Broken") eq_refl).
Defined.

Lemma save_failure_ends_the_run_witness :
  saveAutoGeneratedSchemaRefs (Collaborators := locked)
    (history (fst (basePathLoop (collaborators := locked)
                     reportArgs "/specs" [Examples.svcA] start)))
    (schemaConfigs (locals (fst (basePathLoop (collaborators := locked)
                                   reportArgs "/specs" [Examples.svcA] start))))
  = Throw (Error "EACCES: permission denied")
  /\ snd (generateAll (collaborators := locked) reportArgs "/specs" [Examples.svcA] start)
     = Throw (Error "EACCES: permission denied")
  /\ ~ In (WriteJson "/work/packages.json"
             (packages (locals (fst (basePathLoop (collaborators := locked)
                                       reportArgs "/specs" [Examples.svcA] start)))))
          (history (fst (generateAll (collaborators := locked)
                           reportArgs "/specs" [Examples.svcA] start))).
Proof.
  split; [ reflexivity | ].
  rewrite (save_failure_ends_the_run (collaborators := locked)
             reportArgs "/specs" [Examples.svcA] start
             (Error "EACCES: permission denied") eq_refl).
  split; [ reflexivity | ].
  simpl. intro Hin.
  repeat (destruct Hin as [Hin | Hin]; [ discriminate Hin | ]). exact Hin.
Defined.

Lemma report_holds_every_package_witness :
  GenerateAll.outputPath reportArgs = Some "packages.json"
  /\ "packages.json" <> EmptyString
  /\ saveAutoGeneratedSchemaRefs (Collaborators := Examples.batch)
       (history (fst (basePathLoop (collaborators := Examples.batch)
                        reportArgs "/specs" [Examples.svcMissing; Examples.svcA] start)))
       (schemaConfigs (locals (fst (basePathLoop (collaborators := Examples.batch)
                                      reportArgs "/specs"
                                      [Examples.svcMissing; Examples.svcA] start))))
     = Ok tt
  /\ snd (generateAll (collaborators := Examples.batch)
            reportArgs "/specs" [Examples.svcMissing; Examples.svcA] start)
     = Ok tt
  /\ last (history (fst (generateAll (collaborators := Examples.batch)
                           reportArgs "/specs" [Examples.svcMissing; Examples.svcA] start)))
          (SummaryLog EmptyString)
     = WriteJson "packages.json"
         [ {| path := ["schemas"];
              packageName := String.append "pkg:" Examples.svcAReadme;
              result := succeeded |};
           {| path := ["schemas"]; packageName := Examples.svcA; result := failed |};
           {| path := ["schemas"];
              packageName := String.append "pkg:" Examples.svcAReadme;
              result := succeeded |} ].
Proof.
  split; [ reflexivity | split; [ discriminate | split; [ reflexivity | ] ] ].
  assert ("packages.json" <> EmptyString) as Hp by discriminate.
  rewrite (report_holds_every_package (collaborators := Examples.batch)
             reportArgs "/specs" [Examples.svcMissing; Examples.svcA] start
             "packages.json" "packages.json" eq_refl Hp eq_refl eq_refl).
  split; reflexivity.
Defined.

End BatchMore.

(** ** The single-base-path generator: the run that completes *)

Module SingleMore.
Import Js Generate StepNotations GenerateSingle.
Import Stated.

Section Single.
Context {C : Type} {collaborators : Collaborators C}.



End Single.


End SingleMore.
